(** * Ansible language server: the syntax-check adapter

    A shallow embedding of [server/src/server.ts] and of the process runner
    [NodeExec] it uses, followed by the properties of the adapter.

    JavaScript strings are sequences of UTF-16 code units; numbers that the
    program counts with or stores (line indexes, the problem counter, the
    maximum-problems setting, exit codes) are integers and are modelled by [Z].
    The two process-wide variables [diagnostics] and [maxNumberOfProblems]
    live in the server's heap; child processes started through
    [child_process.exec] live in the runtime until the operating system
    reports their termination, which is when the callback runs. *)

From Stdlib Require Import String Ascii ZArith NArith List Sorted Bool Lia.
Import ListNotations.

Set Implicit Arguments.

(* ------------------------------------------------------------------ *)
(** ** JavaScript strings *)

(** A string is the list of its UTF-16 code units. *)
Definition jsstring : Type := list N.

Module JsString.

(** A literal of the source, written with Rocq's string notation. *)
Definition lit (s : string) : jsstring := map N_of_ascii (list_ascii_of_string s).
Arguments lit s%_string.

Definition TAB : N := 9.
Definition LF : N := 10.
Definition VT : N := 11.
Definition FF : N := 12.
Definition CR : N := 13.
Definition SP : N := 32.
Definition QUOTE : N := 34.

Definition empty : jsstring := [].

(** [s.length] *)
Definition length (s : jsstring) : nat := List.length s.

(** [a + b] *)
Definition concat (a b : jsstring) : jsstring := a ++ b.

(** [s.startsWith(p)] *)
Fixpoint startsWith (s p : jsstring) {struct p} : bool :=
  match p with
  | [] => true
  | c :: p' =>
      match s with
      | [] => false
      | d :: s' => N.eqb d c && startsWith s' p'
      end
  end.

(** [s.substring(start)] for a start that is a length (never negative):
    the code units from [start] on, nothing when [start] is past the end. *)
Definition substring (start : nat) (s : jsstring) : jsstring := skipn start s.

(** [s.slice(start)] for a start that is not negative. *)
Definition slice (start : nat) (s : jsstring) : jsstring := skipn start s.

(** The code units [String.prototype.trim] removes: ECMAScript's
    WhiteSpace (TAB, VT, FF, SP, NBSP, ZWNBSP and the space separators of
    Unicode) and LineTerminator (LF, CR, LS, PS). *)
Definition isWhiteSpace (c : N) : bool :=
  (N.eqb c TAB || N.eqb c LF || N.eqb c VT || N.eqb c FF || N.eqb c CR
   || N.eqb c SP || N.eqb c 160 || N.eqb c 5760
   || (N.leb 8192 c && N.leb c 8202)
   || N.eqb c 8232 || N.eqb c 8233 || N.eqb c 8239 || N.eqb c 8287
   || N.eqb c 12288 || N.eqb c 65279)%bool.

Fixpoint trimStart (s : jsstring) : jsstring :=
  match s with
  | [] => []
  | c :: s' => if isWhiteSpace c then trimStart s' else s
  end.

Definition trimEnd (s : jsstring) : jsstring := rev (trimStart (rev s)).

(** [s.trim()] *)
Definition trim (s : jsstring) : jsstring := trimEnd (trimStart s).

(** [s.split(/\r?\n/g)], with [cur] the piece read since the last
    separator. The scan goes left to right; at each position the pattern
    matches a line feed, or a carriage return directly followed by one;
    a match closes the current piece and the scan goes on after it. The
    pattern never matches the empty string, so the empty input gives one
    empty piece. *)
Fixpoint split_from (cur s : jsstring) : list jsstring :=
  match s with
  | [] => [cur]
  | c :: rest =>
      if N.eqb c LF then cur :: split_from [] rest
      else if N.eqb c CR then
        match rest with
        | d :: rest' =>
            if N.eqb d LF then cur :: split_from [] rest'
            else split_from (cur ++ [c]) rest
        | [] => split_from (cur ++ [c]) rest
        end
      else split_from (cur ++ [c]) rest
  end.

Definition split_lines (s : jsstring) : list jsstring := split_from [] s.

(** [parts.join(sep)] on an array of strings. *)
Fixpoint join (sep : jsstring) (parts : list jsstring) : jsstring :=
  match parts with
  | [] => []
  | [p] => p
  | p :: rest => p ++ sep ++ join sep rest
  end.

End JsString.

Definition str (s : string) : jsstring := JsString.lit s.
Arguments str s%_string.

(* ------------------------------------------------------------------ *)
(** ** JavaScript values of a numeric variable *)

(** What a variable or property declared [number] holds at run time: it
    may be unset, null, or a number. The numbers of this program are
    counts, indexes, exit codes and the maximum-problems setting, all
    integers; fractions and NaN are outside the model. *)
Inductive jsval : Type :=
| undefined
| null
| number (n : Z).

(** ToBoolean: [undefined], [null] and zero are falsy. *)
Definition ToBoolean (v : jsval) : bool :=
  match v with
  | undefined => false
  | null => false
  | number n => negb (Z.eqb n 0)
  end.

(** [a || b] *)
Definition or_else (a b : jsval) : jsval := if ToBoolean a then a else b.

(** ToNumber: [undefined] is NaN (no integer), [null] is 0. *)
Definition ToNumber (v : jsval) : option Z :=
  match v with
  | undefined => None
  | null => Some 0%Z
  | number n => Some n
  end.

(** [x < v] for a number [x]: false as soon as one side is NaN. *)
Definition less_than (x : Z) (v : jsval) : bool :=
  match ToNumber v with
  | Some n => Z.ltb x n
  | None => false
  end.

(* ------------------------------------------------------------------ *)
(** ** The protocol's data *)

(** [DiagnosticSeverity] of the language-server protocol. *)
Inductive DiagnosticSeverity : Type :=
| Error
| Warning
| Information
| Hint.

Record Position : Type := { line : Z; character : Z }.

Record Range : Type := { start : Position; end_ : Position }.

Record Diagnostic : Type := {
  severity : DiagnosticSeverity;
  range : Range;
  message : jsstring;
  source : jsstring
}.

(** The part of a [TextDocument] the server reads. *)
Record TextDocument : Type := {
  uri : jsstring;
  version : Z;
  getText : jsstring
}.

(** What the server writes on the connection. *)
Inductive Message : Type :=
| LogMessage (text : jsstring)
| PublishDiagnostics (doc_uri : jsstring) (diags : list Diagnostic).

(** [Number.MAX_VALUE], the largest finite double: (2^53 - 1) * 2^971. *)
Definition Number_MAX_VALUE : Z := ((2 ^ 53 - 1) * 2 ^ 971)%Z.

(** The integers a double holds exactly: a 53-bit significand scaled by a
    power of two whose exponent is at most 971. *)
Definition double_integer (z : Z) : Prop :=
  exists m e : Z,
    (0 <= m < 2 ^ 53)%Z /\ (0 <= e <= 971)%Z /\ Z.abs z = (m * 2 ^ e)%Z.

(* ------------------------------------------------------------------ *)
(** ** exec.ts: the process runner *)

Record ExecResult : Type := {
  stdout : jsstring;
  stderr : jsstring;
  exitCode : jsval
}.

Definition set_stdout (v : jsstring) (r : ExecResult) : ExecResult :=
  {| stdout := v; stderr := stderr r; exitCode := exitCode r |}.

Definition set_stderr (v : jsstring) (r : ExecResult) : ExecResult :=
  {| stdout := stdout r; stderr := v; exitCode := exitCode r |}.

Definition set_exitCode (v : jsval) (r : ExecResult) : ExecResult :=
  {| stdout := stdout r; stderr := stderr r; exitCode := v |}.

(** The error object [child_process.exec] hands to its callback when the
    command failed; the runner reads its [code]. *)
Record ExecError : Type := { code : jsval }.

(** Node's [child_process]: a started command is a child of the runtime
    until the operating system reports that it ended; the callback given to
    [exec] runs then, on the program's heap, and the child is gone. *)
Module ChildProcess.
Section Runtime.

Variable Heap : Type.

Definition Callback : Type :=
  option ExecError -> jsstring -> jsstring -> Heap -> Heap.

Record Child : Type := {
  pid : nat;
  command : jsstring;
  callback : Callback
}.

Record Runtime : Type := {
  heap : Heap;
  children : list Child;
  next_pid : nat
}.

Definition with_heap (f : Heap -> Heap) (rt : Runtime) : Runtime :=
  {| heap := f (heap rt); children := children rt; next_pid := next_pid rt |}.

(** [require('child_process').exec(command, callback)] *)
Definition exec (cmd : jsstring) (cb : Callback) (rt : Runtime) : Runtime :=
  {| heap := heap rt;
     children := children rt ++ [ {| pid := next_pid rt; command := cmd; callback := cb |} ];
     next_pid := S (next_pid rt) |}.

Definition is_pid (p : nat) (c : Child) : bool := Nat.eqb (pid c) p.

(** The child [p] ends with error [error] and the captured output:
    its callback runs and the child leaves the table. Nothing happens
    for a process that is not a child. *)
Definition exit (p : nat) (error : option ExecError) (out err : jsstring)
    (rt : Runtime) : option Runtime :=
  match find (is_pid p) (children rt) with
  | Some c =>
      Some {| heap := callback c error out err (heap rt);
              children := filter (fun c' => negb (is_pid p c')) (children rt);
              next_pid := next_pid rt |}
  | None => None
  end.

(** Process ids are handed out once. *)
Definition fresh_pids (rt : Runtime) : Prop :=
  Forall (fun c => pid c < next_pid rt) (children rt).

Definition boot (h : Heap) : Runtime :=
  {| heap := h; children := []; next_pid := 0 |}.

End Runtime.
End ChildProcess.

Module NodeExec.
Section Exec.

Variable Heap : Type.

(** The callback [exec] hands to [child_process.exec]; [result] is the
    object created before the command is started. *)
Definition on_exit (result : ExecResult) (handleResult : ExecResult -> Heap -> Heap)
    : ChildProcess.Callback Heap :=
  fun error stdout stderr =>
    let result := set_stdout stdout result in
    let result := set_stderr stderr result in
    let result :=
      set_exitCode (match error with Some e => code e | None => number 0 end) result in
    handleResult result.

Definition exec (filename : jsstring) (cmdLineArgs : list jsstring)
    (handleResult : ExecResult -> Heap -> Heap)
    (rt : ChildProcess.Runtime Heap) : ChildProcess.Runtime Heap :=
  let result := {| stdout := JsString.empty; stderr := JsString.empty; exitCode := undefined |} in
  let result := set_exitCode null result in
  let cmdLine :=
    JsString.concat (JsString.concat filename (str " "))
                    (JsString.join (str " ") cmdLineArgs) in
  ChildProcess.exec cmdLine (on_exit result handleResult) rt.

End Exec.
End NodeExec.

(* ------------------------------------------------------------------ *)
(** ** server.ts: the process-wide state *)

Definition WARNING : jsstring := str "[WARNING] ".
Definition ERROR : jsstring := str "ERROR! ".

(** The settings interfaces. A property that the payload does not carry
    reads as [undefined]; an object that is not there is [None]. *)
Module AnsibleSettings.
Record t : Type := { maxNumberOfProblems : jsval }.
End AnsibleSettings.

Module Settings.
Record t : Type := { ansibleLanguageServer : option AnsibleSettings.t }.
End Settings.

Record DidChangeConfigurationParams : Type := { settings : option Settings.t }.

Record TextDocumentChangeEvent : Type := { document : TextDocument }.

(** The module-level variables of server.ts, the documents the text
    document manager tracks ([documents.all()]) and the messages written on
    the connection so far, oldest first. A published message carries the
    array that [diagnostics] refers to when it is sent; [handler] starts
    from a new array and nothing writes to an array after [handler] has
    returned, so the message is modelled by the value of the list. *)
Record ServerState : Type := {
  diagnostics : list Diagnostic;
  maxNumberOfProblems : jsval;
  documents : list TextDocument;
  sent : list Message
}.

Definition set_diagnostics (ds : list Diagnostic) (s : ServerState) : ServerState :=
  {| diagnostics := ds; maxNumberOfProblems := maxNumberOfProblems s;
     documents := documents s; sent := sent s |}.

Definition set_maxNumberOfProblems (v : jsval) (s : ServerState) : ServerState :=
  {| diagnostics := diagnostics s; maxNumberOfProblems := v;
     documents := documents s; sent := sent s |}.

Definition set_documents (docs : list TextDocument) (s : ServerState) : ServerState :=
  {| diagnostics := diagnostics s; maxNumberOfProblems := maxNumberOfProblems s;
     documents := docs; sent := sent s |}.

(** [diagnostics.push(d)] *)
Definition push_diagnostic (d : Diagnostic) (s : ServerState) : ServerState :=
  set_diagnostics (diagnostics s ++ [d]) s.

Definition send (m : Message) (s : ServerState) : ServerState :=
  {| diagnostics := diagnostics s; maxNumberOfProblems := maxNumberOfProblems s;
     documents := documents s; sent := sent s ++ [m] |}.

(** The state when the module has been loaded: [diagnostics = []] and
    [maxNumberOfProblems] declared without a value. *)
Definition loaded (docs : list TextDocument) : ServerState :=
  {| diagnostics := []; maxNumberOfProblems := undefined;
     documents := docs; sent := [] |}.

(* ------------------------------------------------------------------ *)
(** ** server.ts: [handler] *)

(** The local variables of [handler]'s loop together with the heap. *)
Record LoopState : Type := {
  loop_i : Z;
  loop_problems : Z;
  loop_heap : ServerState
}.

(** The diagnostic the loop body pushes for line [i]. *)
Definition diagnostic_at (i : Z) (sev : DiagnosticSeverity) (msg : jsstring) : Diagnostic :=
  {| severity := sev;
     range := {| start := {| line := i; character := Number_MAX_VALUE |};
                 end_ := {| line := i; character := Number_MAX_VALUE |} |};
     message := msg;
     source := str "ex" |}.

(** The branches of the loop body that set [sev] and [msg] from the
    trimmed line; [None] is [sev = null]. *)
Definition classify (line : jsstring) : option DiagnosticSeverity * jsstring :=
  let msg := JsString.empty in
  if JsString.startsWith line WARNING then
    (Some Warning, JsString.substring (JsString.length WARNING) line)
  else if JsString.startsWith line ERROR then
    (Some Error, JsString.substring (JsString.length ERROR) line)
  else
    (None, msg).

(** [for (var i = 0; i < lines.length && problems < maxNumberOfProblems; i++)]
    with [rest] the elements of [lines] from index [i] on. [sev] is
    assigned in every branch before it is read, so it carries nothing from
    one iteration to the next. *)
Fixpoint for_lines (rest : list jsstring) (i problems : Z) (s : ServerState) : LoopState :=
  match rest with
  | [] => {| loop_i := i; loop_problems := problems; loop_heap := s |}
  | lines_i :: rest' =>
      if less_than problems (maxNumberOfProblems s) then
        let line := JsString.trim lines_i in
        match classify line with
        | (Some sev, msg) =>
            for_lines rest' (i + 1) (problems + 1) (push_diagnostic (diagnostic_at i sev msg) s)
        | (None, _) =>
            for_lines rest' (i + 1) problems s
        end
      else {| loop_i := i; loop_problems := problems; loop_heap := s |}
  end.

(** The loop of [handler] on the lines of a stderr text, from the emptied
    diagnostics list. *)
Definition scan (lines : list jsstring) (s : ServerState) : LoopState :=
  let problems := 0%Z in
  for_lines lines 0 problems (set_diagnostics [] s).

Definition handler (result : ExecResult) (s : ServerState) : ServerState :=
  let lines := JsString.split_lines (stderr result) in
  loop_heap (scan lines s).

(* ------------------------------------------------------------------ *)
(** ** server.ts: the event handlers *)

Definition Runtime : Type := ChildProcess.Runtime ServerState.

Inductive Exception : Type := TypeError.

(** A handler either returns or throws; both leave a runtime behind. *)
Inductive Outcome (A : Type) : Type :=
| Returned (a : A) (rt : Runtime)
| Threw (e : Exception) (rt : Runtime).

Arguments Threw {A} e rt.

Definition M (A : Type) : Type := Runtime -> Outcome A.

Definition ret {A : Type} (a : A) : M A := fun rt => Returned a rt.

Definition bind {A B : Type} (c : M A) (k : A -> M B) : M B :=
  fun rt =>
    match c rt with
    | Returned a rt' => k a rt'
    | Threw e rt' => Threw e rt'
    end.

Notation "x <- c ;; k" := (bind c (fun x => k))
  (at level 61, c at next level, right associativity).
Notation "c ;; k" := (bind c (fun _ => k))
  (at level 61, right associativity).

Definition final {A : Type} (o : Outcome A) : Runtime :=
  match o with
  | Returned _ rt => rt
  | Threw _ rt => rt
  end.

(** Reading a property of [o]: a TypeError when [o] is null or undefined. *)
Definition member {A : Type} (o : option A) : M A :=
  fun rt =>
    match o with
    | Some a => Returned a rt
    | None => Threw TypeError rt
    end.

Definition read {A : Type} (var : ServerState -> A) : M A :=
  fun rt => Returned (var (ChildProcess.heap rt)) rt.

Definition update (f : ServerState -> ServerState) : M unit :=
  fun rt => Returned tt (ChildProcess.with_heap f rt).

(** [connection.console.log(text)] *)
Definition console_log (text : jsstring) : M unit := update (send (LogMessage text)).

(** [connection.sendDiagnostics({ uri, diagnostics })] *)
Definition sendDiagnostics (u : jsstring) (ds : list Diagnostic) : M unit :=
  update (send (PublishDiagnostics u ds)).

(** [cli.exec(...)] with [cli = new NodeExec()]. *)
Definition cli_exec (filename : jsstring) (args : list jsstring)
    (handleResult : ExecResult -> ServerState -> ServerState) : M unit :=
  fun rt => Returned tt (NodeExec.exec filename args handleResult rt).

(** [array.forEach(f)] *)
Fixpoint forEach {A : Type} (l : list A) (f : A -> M unit) : M unit :=
  match l with
  | [] => ret tt
  | x :: l' => f x ;; forEach l' f
  end.

Definition validateTextDocument (playbook : TextDocument) : M unit :=
  let playbookUri := uri playbook in
  if negb (JsString.startsWith (uri playbook) (str "file:")) then ret tt
  else
    let args :=
      [ str "-i"; JsString.QUOTE :: str "localhost," ++ [JsString.QUOTE];
        str "-c"; str "local"; str "--syntax-check"; JsString.slice 7 playbookUri ] in
    console_log (JsString.slice 7 playbookUri) ;;
    cli_exec (str "ansible-playbook") args handler ;;
    ds <- read diagnostics ;;
    sendDiagnostics playbookUri ds.

Definition onDidChangeContent (change : TextDocumentChangeEvent) : M unit :=
  validateTextDocument (document change).

Definition onDidChangeConfiguration (change : DidChangeConfigurationParams) : M unit :=
  let settings := settings change in
  obj <- member settings ;;
  server_settings <- member (Settings.ansibleLanguageServer obj) ;;
  update (set_maxNumberOfProblems
            (or_else (AnsibleSettings.maxNumberOfProblems server_settings) (number 100))) ;;
  docs <- read documents ;;
  forEach docs validateTextDocument.

(* ------------------------------------------------------------------ *)
(** ** The event loop *)

(** What the single-threaded loop of the server handles, one at a time:
    the two notifications server.ts listens to, the end of a child process
    (which runs the callback of [NodeExec.exec]), and the text document
    manager replacing, by its own rules, the documents it tracks. *)
Inductive Event : Type :=
| Tracked (docs : list TextDocument)
| DidChangeContent (change : TextDocumentChangeEvent)
| DidChangeConfiguration (change : DidChangeConfigurationParams)
| ChildExit (p : nat) (error : option ExecError) (out err : jsstring).

(** An exception that leaves a notification handler is caught by the
    connection; what the handler did before it stays done. *)
Definition dispatch (e : Event) (rt : Runtime) : Runtime :=
  match e with
  | Tracked docs => ChildProcess.with_heap (set_documents docs) rt
  | DidChangeContent change => final (onDidChangeContent change rt)
  | DidChangeConfiguration change => final (onDidChangeConfiguration change rt)
  | ChildExit p error out err =>
      match ChildProcess.exit p error out err rt with
      | Some rt' => rt'
      | None => rt
      end
  end.

Definition run (events : list Event) (rt : Runtime) : Runtime :=
  fold_left (fun rt e => dispatch e rt) events rt.

(* ------------------------------------------------------------------ *)
(** ** The classifier in the specification's words *)

(** The diagnostic of one line of the stderr text, if the line has one:
    the line is trimmed; the prefix ["[WARNING] "] gives a warning and the
    prefix ["ERROR! "] an error, with the rest of the trimmed line as the
    message, at the line's index. *)
Definition line_diagnostic (i : Z) (raw : jsstring) : option Diagnostic :=
  let t := JsString.trim raw in
  if JsString.startsWith t WARNING then Some (diagnostic_at i Warning (skipn 10 t))
  else if JsString.startsWith t ERROR then Some (diagnostic_at i Error (skipn 7 t))
  else None.

(** The diagnostics of all the lines, in line order; [i] is the index of
    the first line. *)
Fixpoint line_diagnostics (i : Z) (lines : list jsstring) : list Diagnostic :=
  match lines with
  | [] => []
  | raw :: rest =>
      match line_diagnostic i raw with
      | Some d => d :: line_diagnostics (i + 1) rest
      | None => line_diagnostics (i + 1) rest
      end
  end.

(** How many diagnostics a run may still emit when [problems] have been
    emitted under the setting [max]. *)
Definition budget (problems : Z) (max : jsval) : nat :=
  match ToNumber max with
  | Some n => Z.to_nat (n - problems)
  | None => 0
  end.

(** The classifier of the specification: the first [maxProblems]
    diagnostics of the lines. *)
Definition classifier (stderrText : jsstring) (maxProblems : jsval) : list Diagnostic :=
  firstn (budget 0 maxProblems) (line_diagnostics 0 (JsString.split_lines stderrText)).

(** The configuration payload that carries the value [v] for the setting. *)
Definition configuration (v : jsval) : DidChangeConfigurationParams :=
  {| settings :=
       Some {| Settings.ansibleLanguageServer :=
                 Some {| AnsibleSettings.maxNumberOfProblems := v |} |} |}.

(** The server after its first configuration event, with no open document. *)
Definition configured (v : jsval) : Runtime :=
  final (onDidChangeConfiguration (configuration v) (ChildProcess.boot (loaded []))).

(* ------------------------------------------------------------------ *)
(** ** Sample inputs *)

(** A run whose stderr text is ["[WARNING] a\n[WARNING] b"]. *)
Definition two_warnings : ExecResult :=
  {| stdout := JsString.empty;
     stderr := str "[WARNING] a" ++ [JsString.LF] ++ str "[WARNING] b";
     exitCode := number 0 |}.

(** A run whose stderr text is ["[WARNING] deprecated\r\n  ERROR! bad module name \nplay ok"]:
    a warning, an indented error and a line without prefix. *)
Definition warning_then_error : ExecResult :=
  {| stdout := JsString.empty;
     stderr := str "[WARNING] deprecated" ++ [JsString.CR; JsString.LF]
               ++ str "  ERROR! bad module name " ++ [JsString.LF] ++ str "play ok";
     exitCode := number 4 |}.

(** A run that wrote nothing. *)
Definition silent : ExecResult :=
  {| stdout := JsString.empty; stderr := JsString.empty; exitCode := number 0 |}.

Definition play_yml : TextDocument :=
  {| uri := str "file:///tmp/play.yml"; version := 1; getText := JsString.empty |}.

Definition untitled : TextDocument :=
  {| uri := str "untitled:Untitled-1"; version := 1; getText := JsString.empty |}.

Definition site_yml : TextDocument :=
  {| uri := str "file:///srv/site.yml"; version := 3; getText := JsString.empty |}.

(** Two lines of output, and the same two indented and with trailing
    blanks. *)
Definition report_lines : list jsstring :=
  [ str "[WARNING] deprecated"; str "ERROR! bad module name" ].

Definition report_lines_padded : list jsstring :=
  [ str "  [WARNING] deprecated "; (JsString.TAB :: str "ERROR! bad module name") ].

(* ------------------------------------------------------------------ *)
(** ** server.ts: completion *)

Module Completion.

(** [CompletionItemKind] of the protocol, from [Text = 1] on. *)
Inductive CompletionItemKind : Type :=
| TextKind | MethodKind | FunctionKind | ConstructorKind | FieldKind
| VariableKind | ClassKind | InterfaceKind | ModuleKind | PropertyKind
| UnitKind | ValueKind | EnumKind | KeywordKind | SnippetKind
| ColorKind | FileKind | ReferenceKind.

(** A completion item; [None] is a property the object does not have.
    [data] is any value; one that is not a number is strictly equal to no
    number, as [undefined] is. *)
Record CompletionItem : Type := {
  label : jsstring;
  kind : option CompletionItemKind;
  data : jsval;
  detail : option jsstring;
  documentation : option jsstring
}.

Record TextDocumentPositionParams : Type := {
  textDocument : jsstring;
  position : Position
}.

Definition set_detail (v : jsstring) (item : CompletionItem) : CompletionItem :=
  {| label := label item; kind := kind item; data := data item;
     detail := Some v; documentation := documentation item |}.

Definition set_documentation (v : jsstring) (item : CompletionItem) : CompletionItem :=
  {| label := label item; kind := kind item; data := data item;
     detail := detail item; documentation := Some v |}.

(** [v === n] for a number literal [n]. *)
Definition strictly_equal (v : jsval) (n : Z) : bool :=
  match v with
  | number m => Z.eqb m n
  | _ => false
  end.

Definition onCompletion (textDocumentPosition : TextDocumentPositionParams)
    : list CompletionItem :=
  [ {| label := str "TypeScript"; kind := Some TextKind; data := number 1;
       detail := None; documentation := None |};
    {| label := str "JavaScript"; kind := Some TextKind; data := number 2;
       detail := None; documentation := None |} ].

(** The handler writes to the item it was given and returns it. *)
Definition onCompletionResolve (item : CompletionItem) : CompletionItem :=
  if strictly_equal (data item) 1 then
    let item := set_detail (str "TypeScript details") item in
    set_documentation (str "TypeScript documentation") item
  else if strictly_equal (data item) 2 then
    let item := set_detail (str "JavaScript details") item in
    set_documentation (str "JavaScript documentation") item
  else item.

End Completion.

(* ------------------------------------------------------------------ *)
(** ** server.ts: the session *)

Record InitializeParams : Type := { rootPath : option jsstring }.

Inductive TextDocumentSyncKind : Type :=
| NoSync
| Full
| Incremental.

Record ServerCapabilities : Type := {
  textDocumentSync : TextDocumentSyncKind;
  resolveProvider : bool
}.

Record InitializeResult : Type := { capabilities : ServerCapabilities }.

Record DidChangeWatchedFilesParams : Type := { changes : list jsstring }.

(** The whole of the module's state: [workspaceRoot], which is declared
    without a value and holds [params.rootPath] (a string or null) after
    the initialize request, and the runtime with the other variables. *)
Record Session : Type := {
  workspaceRoot : option (option jsstring);
  runtime : Runtime
}.

Definition with_runtime (f : Runtime -> Runtime) (s : Session) : Session :=
  {| workspaceRoot := workspaceRoot s; runtime := f (runtime s) |}.

(** [connection.onInitialize]; [documents.syncKind] of the text document
    manager is [TextDocumentSyncKind.Full]. *)
Definition onInitialize (params : InitializeParams) (s : Session)
    : InitializeResult * Session :=
  let rt := final (console_log (str "Initializing Ansible Language Server") (runtime s)) in
  let s := {| workspaceRoot := Some (rootPath params); runtime := rt |} in
  ({| capabilities := {| textDocumentSync := Full; resolveProvider := true |} |}, s).

(** [connection.onDidChangeWatchedFiles], with the text as it is spelt. *)
Definition onDidChangeWatchedFiles (change : DidChangeWatchedFilesParams) : M unit :=
  console_log (str "We recevied a file change event").

(** Everything the server has a handler for. *)
Inductive Incoming : Type :=
| Notified (e : Event)
| Initialize (params : InitializeParams)
| DidChangeWatchedFiles (change : DidChangeWatchedFilesParams)
| CompletionRequest (textDocumentPosition : Completion.TextDocumentPositionParams)
| CompletionResolveRequest (item : Completion.CompletionItem).

(** The state after a message; the two completion requests only answer. *)
Definition receive (m : Incoming) (s : Session) : Session :=
  match m with
  | Notified e => with_runtime (dispatch e) s
  | Initialize params => snd (onInitialize params s)
  | DidChangeWatchedFiles change =>
      with_runtime (fun rt => final (onDidChangeWatchedFiles change rt)) s
  | CompletionRequest _ => s
  | CompletionResolveRequest _ => s
  end.

Definition serve (messages : list Incoming) (s : Session) : Session :=
  fold_left (fun s m => receive m s) messages s.

(** The session when the module has been loaded. *)
Definition fresh_session (docs : list TextDocument) : Session :=
  {| workspaceRoot := None; runtime := ChildProcess.boot (loaded docs) |}.

(* ------------------------------------------------------------------ *)
(** ** Vocabulary of the properties *)

(** The test of [validateTextDocument] on the URI. *)
Definition is_file (playbook : TextDocument) : bool :=
  JsString.startsWith (uri playbook) (str "file:").

(** The diagnostics notifications among the messages, oldest first. *)
Definition publications (s : ServerState) : list (jsstring * list Diagnostic) :=
  flat_map (fun m =>
    match m with
    | PublishDiagnostics u ds => [(u, ds)]
    | LogMessage _ => []
    end) (sent s).

(** What a validation of [playbook] writes when the list holds [ds]. *)
Definition validation_messages (ds : list Diagnostic) (playbook : TextDocument)
    : list Message :=
  if is_file playbook then
    [ LogMessage (JsString.slice 7 (uri playbook)); PublishDiagnostics (uri playbook) ds ]
  else [].

Definition line_of (d : Diagnostic) : Z := line (start (range d)).

(** The line numbers go up strictly along the list. *)
Definition ascending (ds : list Diagnostic) : Prop :=
  StronglySorted (fun a b => (line_of a < line_of b)%Z) ds.

(** A line of text: no line feed and no carriage return in it. *)
Definition plain (l : jsstring) : Prop :=
  Forall (fun c => c <> JsString.LF /\ c <> JsString.CR) l.

(** Spaces, tabs and the like, but no line break. *)
Definition blank (l : jsstring) : Prop :=
  Forall (fun c => JsString.isWhiteSpace c = true /\ c <> JsString.LF /\ c <> JsString.CR) l.

(** The number of line feeds of a text. *)
Definition line_feeds (s : jsstring) : nat :=
  List.length (filter (N.eqb JsString.LF) s).

(** The command line of the syntax check of [path]. *)
Definition syntax_check (path : jsstring) : jsstring :=
  str "ansible-playbook -i " ++ [JsString.QUOTE] ++ str "localhost," ++ [JsString.QUOTE]
  ++ str " -c local --syntax-check " ++ path.

(** The child process a validation of [playbook] starts when [p] is the
    next process id: none for a URI that is not of the file scheme. *)
Definition checker (p : nat) (playbook : TextDocument)
    : list (ChildProcess.Child ServerState) :=
  if is_file playbook then
    [ {| ChildProcess.pid := p;
         ChildProcess.command := syntax_check (JsString.slice 7 (uri playbook));
         ChildProcess.callback :=
           NodeExec.on_exit
             {| stdout := JsString.empty; stderr := JsString.empty; exitCode := null |}
             handler |} ]
  else [].

(** The result object the callback of [NodeExec.exec] hands over. *)
Definition exec_result (error : option ExecError) (out err : jsstring) : ExecResult :=
  {| stdout := out; stderr := err;
     exitCode := match error with Some e => code e | None => number 0 end |}.

(** A list that some run of [handler] leaves. *)
Definition producible (ds : list Diagnostic) : Prop :=
  exists (result : ExecResult) (s : ServerState), ds = diagnostics (handler result s).

(** A setting that is unset or a number other than 0. *)
Definition settled (v : jsval) : Prop :=
  v = undefined \/ exists n : Z, n <> 0%Z /\ v = number n.

(** What holds of the runtime between two events. *)
Definition consistent (rt : Runtime) : Prop :=
  ChildProcess.fresh_pids rt
  /\ NoDup (map (@ChildProcess.pid ServerState) (ChildProcess.children rt))
  /\ Forall (fun c =>
        exists r0 : ExecResult, ChildProcess.callback c = NodeExec.on_exit r0 handler)
       (ChildProcess.children rt)
  /\ settled (maxNumberOfProblems (ChildProcess.heap rt))
  /\ producible (diagnostics (ChildProcess.heap rt))
  /\ Forall (fun ud =>
        JsString.startsWith (fst ud) (str "file:") = true /\ producible (snd ud))
       (publications (ChildProcess.heap rt))
  /\ ChildProcess.next_pid rt = List.length (publications (ChildProcess.heap rt)).

(** A notification that is a configuration change. *)
Definition is_configuration (m : Incoming) : bool :=
  match m with
  | Notified (DidChangeConfiguration _) => true
  | _ => false
  end.

(* ------------------------------------------------------------------ *)
(** ** Strings *)

Lemma startsWith_app (s p : jsstring) :
  JsString.startsWith s p = true -> s = p ++ JsString.substring (JsString.length p) s.
Proof.
  revert s. induction p as [|c p IH]; intros s H.
  - reflexivity.
  - destruct s as [|d s]; simpl in H; [discriminate|].
    apply andb_true_iff in H. destruct H as [Hc Hp].
    apply N.eqb_eq in Hc. subst d. simpl.
    f_equal. apply IH. exact Hp.
Qed.

Lemma startsWith_prefix (p rest : jsstring) : JsString.startsWith (p ++ rest) p = true.
Proof.
  induction p as [|c p IH]; simpl; [reflexivity|].
  rewrite N.eqb_refl. exact IH.
Qed.

(* ------------------------------------------------------------------ *)
(** ** The loop of [handler] *)

Lemma classify_line_diagnostic (i : Z) (raw : jsstring) :
  line_diagnostic i raw =
    match classify (JsString.trim raw) with
    | (Some sev, msg) => Some (diagnostic_at i sev msg)
    | (None, _) => None
    end.
Proof.
  unfold line_diagnostic, classify.
  destruct (JsString.startsWith (JsString.trim raw) WARNING); [reflexivity|].
  destruct (JsString.startsWith (JsString.trim raw) ERROR); reflexivity.
Qed.

Lemma less_than_budget (p : Z) (max : jsval) :
  less_than p max = true -> budget p max = S (budget (p + 1) max).
Proof.
  unfold less_than, budget. destruct (ToNumber max) as [n|]; [|discriminate].
  intros H. apply Z.ltb_lt in H.
  rewrite <- Z2Nat.inj_succ by lia. f_equal. lia.
Qed.

Lemma not_less_than_budget (p : Z) (max : jsval) :
  less_than p max = false -> budget p max = 0.
Proof.
  unfold less_than, budget. destruct (ToNumber max) as [n|]; [|reflexivity].
  intros H. apply Z.ltb_ge in H. lia.
Qed.

(** When the guard fails the loop is over, whatever lines are left. *)
Lemma for_lines_over (rest : list jsstring) (i p : Z) (s : ServerState) :
  less_than p (maxNumberOfProblems s) = false ->
  for_lines rest i p s = {| loop_i := i; loop_problems := p; loop_heap := s |}.
Proof.
  intros H. destruct rest as [|l rest]; simpl; [reflexivity|].
  rewrite H. reflexivity.
Qed.

(** The loop touches nothing but the diagnostics list. *)
Lemma for_lines_frame (rest : list jsstring) (i p : Z) (s : ServerState) :
  let s' := loop_heap (for_lines rest i p s) in
  maxNumberOfProblems s' = maxNumberOfProblems s
  /\ documents s' = documents s
  /\ sent s' = sent s.
Proof.
  revert i p s. induction rest as [|l rest IH]; intros i p s; simpl.
  - auto.
  - destruct (less_than p (maxNumberOfProblems s)); simpl; [|auto].
    destruct (classify (JsString.trim l)) as [[sev|] msg].
    + destruct (IH (i + 1)%Z (p + 1)%Z (push_diagnostic (diagnostic_at i sev msg) s))
        as (H1 & H2 & H3).
      auto.
    + apply IH.
Qed.

(** The loop refines the classifier: it appends the first diagnostics of
    the lines that the budget allows, counts them in [problems], and
    leaves [i] behind the last line it looked at. *)
Lemma for_lines_spec (rest : list jsstring) (i p : Z) (s : ServerState) :
  let st := for_lines rest i p s in
  let emitted := firstn (budget p (maxNumberOfProblems s)) (line_diagnostics i rest) in
  diagnostics (loop_heap st) = diagnostics s ++ emitted
  /\ loop_problems st = (p + Z.of_nat (List.length emitted))%Z
  /\ (i <= loop_i st <= i + Z.of_nat (List.length rest))%Z.
Proof.
  revert i p s. induction rest as [|l rest IH]; intros i p s; simpl.
  - rewrite firstn_nil. simpl. rewrite app_nil_r. repeat split; lia.
  - destruct (less_than p (maxNumberOfProblems s)) eqn:G.
    + rewrite classify_line_diagnostic.
      destruct (classify (JsString.trim l)) as [[sev|] msg].
      * specialize (IH (i + 1)%Z (p + 1)%Z (push_diagnostic (diagnostic_at i sev msg) s)).
        simpl in IH. destruct IH as (Hd & Hp & Hi).
        rewrite (less_than_budget _ _ G). simpl.
        rewrite Hd, Hp. rewrite <- app_assoc. simpl.
        repeat split; lia.
      * specialize (IH (i + 1)%Z p s). simpl in IH. destruct IH as (Hd & Hp & Hi).
        rewrite Hd, Hp. repeat split; lia.
    + rewrite (not_less_than_budget _ _ G). simpl. rewrite app_nil_r.
      repeat split; lia.
Qed.

(** Scanning a text in two parts is scanning the second part from where
    the first part ended. *)
Lemma for_lines_app (l1 l2 : list jsstring) (i p : Z) (s : ServerState) :
  for_lines (l1 ++ l2) i p s =
    let st := for_lines l1 i p s in
    for_lines l2 (loop_i st) (loop_problems st) (loop_heap st).
Proof.
  revert i p s. induction l1 as [|l l1 IH]; intros i p s; simpl.
  - reflexivity.
  - destruct (less_than p (maxNumberOfProblems s)) eqn:G.
    + destruct (classify (JsString.trim l)) as [[sev|] msg]; apply IH.
    + simpl. symmetry. apply for_lines_over. exact G.
Qed.

Lemma handler_classifier (result : ExecResult) (s : ServerState) :
  diagnostics (handler result s) = classifier (stderr result) (maxNumberOfProblems s).
Proof.
  unfold handler, scan, classifier.
  destruct (for_lines_spec (JsString.split_lines (stderr result)) 0 0 (set_diagnostics [] s))
    as (Hd & _ & _).
  exact Hd.
Qed.

Lemma handler_frame (result : ExecResult) (s : ServerState) :
  maxNumberOfProblems (handler result s) = maxNumberOfProblems s
  /\ documents (handler result s) = documents s
  /\ sent (handler result s) = sent s.
Proof.
  unfold handler, scan.
  apply (for_lines_frame (JsString.split_lines (stderr result)) 0 0 (set_diagnostics [] s)).
Qed.

(** Where the diagnostics of the lines come from. *)
Lemma line_diagnostics_In (lines : list jsstring) (i : Z) (d : Diagnostic) :
  In d (line_diagnostics i lines) ->
  exists (k : nat) (raw : jsstring),
    nth_error lines k = Some raw /\ line_diagnostic (i + Z.of_nat k) raw = Some d.
Proof.
  revert i. induction lines as [|l lines IH]; intros i H; simpl in H.
  - contradiction.
  - destruct (line_diagnostic i l) as [d0|] eqn:E.
    + destruct H as [H|H].
      * subst d0. exists 0, l. split; [reflexivity|].
        rewrite Z.add_0_r. exact E.
      * destruct (IH _ H) as (k & raw & Hk & Hd).
        exists (S k), raw. split; [exact Hk|].
        rewrite <- Hd. f_equal. lia.
    + destruct (IH _ H) as (k & raw & Hk & Hd).
      exists (S k), raw. split; [exact Hk|].
      rewrite <- Hd. f_equal. lia.
Qed.

Lemma line_diagnostics_app (l1 l2 : list jsstring) (i : Z) :
  line_diagnostics i (l1 ++ l2) =
    line_diagnostics i l1 ++ line_diagnostics (i + Z.of_nat (List.length l1)) l2.
Proof.
  revert i. induction l1 as [|l l1 IH]; intros i; simpl.
  - rewrite Z.add_0_r. reflexivity.
  - rewrite IH. replace (i + 1 + Z.of_nat (List.length l1))%Z
      with (i + Z.pos (Pos.of_succ_nat (List.length l1)))%Z by lia.
    destruct (line_diagnostic i l); reflexivity.
Qed.

Lemma line_diagnostic_line (i : Z) (raw : jsstring) (d : Diagnostic) :
  line_diagnostic i raw = Some d ->
  start (range d) = end_ (range d)
  /\ line (start (range d)) = i
  /\ character (start (range d)) = Number_MAX_VALUE.
Proof.
  unfold line_diagnostic.
  destruct (JsString.startsWith (JsString.trim raw) WARNING).
  - intros H. injection H as <-. auto.
  - destruct (JsString.startsWith (JsString.trim raw) ERROR); [|discriminate].
    intros H. injection H as <-. auto.
Qed.

Lemma scan_problems (lines : list jsstring) (s : ServerState) :
  loop_problems (scan lines s) =
    Z.of_nat (List.length (firstn (budget 0 (maxNumberOfProblems s)) (line_diagnostics 0 lines))).
Proof.
  unfold scan.
  destruct (for_lines_spec lines 0 0 (set_diagnostics [] s)) as (_ & Hp & _).
  exact Hp.
Qed.

Lemma scan_diagnostics (lines : list jsstring) (s : ServerState) :
  diagnostics (loop_heap (scan lines s)) =
    firstn (budget 0 (maxNumberOfProblems s)) (line_diagnostics 0 lines).
Proof.
  unfold scan.
  destruct (for_lines_spec lines 0 0 (set_diagnostics [] s)) as (Hd & _ & _).
  exact Hd.
Qed.

Lemma firstn_In {A : Type} (n : nat) (l : list A) (x : A) :
  In x (firstn n l) -> In x l.
Proof.
  intros H. rewrite <- (firstn_skipn n l). apply in_or_app. left. exact H.
Qed.

Lemma classifier_In (text : jsstring) (max : jsval) (d : Diagnostic) :
  In d (classifier text max) ->
  exists (k : nat) (raw : jsstring),
    nth_error (JsString.split_lines text) k = Some raw
    /\ line_diagnostic (Z.of_nat k) raw = Some d.
Proof.
  unfold classifier. intros H.
  apply firstn_In in H.
  apply line_diagnostics_In in H. exact H.
Qed.

(** The largest integer a double holds is [Number.MAX_VALUE]. *)
Lemma Number_MAX_VALUE_greatest :
  double_integer Number_MAX_VALUE
  /\ forall z : Z, double_integer z -> (z <= Number_MAX_VALUE)%Z.
Proof.
  split.
  - exists (2 ^ 53 - 1)%Z, 971%Z. repeat split; try lia.
  - intros z (m & e & Hm & He & Hz).
    assert (Hpow : (0 < 2 ^ e <= 2 ^ 971)%Z).
    { split; [apply Z.pow_pos_nonneg; lia | apply Z.pow_le_mono_r; lia]. }
    assert (Hle : (m * 2 ^ e <= (2 ^ 53 - 1) * 2 ^ 971)%Z).
    { apply Z.mul_le_mono_nonneg; lia. }
    unfold Number_MAX_VALUE. lia.
Qed.

(* ------------------------------------------------------------------ *)
(** ** Properties of the classifier *)

(** C10: after a run of [handler] the diagnostics list holds exactly the
    diagnostics of that run's stderr text: it is the classifier's answer
    for the text and the current setting, every element comes from a line
    of the text, and whatever the list held before the run has no
    influence on it (the list is replaced, not merged). *)
Theorem handler_replaces_diagnostics (result : ExecResult) (s : ServerState) :
  diagnostics (handler result s) = classifier (stderr result) (maxNumberOfProblems s)
  /\ Forall (fun d =>
       exists (k : nat) (raw : jsstring),
         nth_error (JsString.split_lines (stderr result)) k = Some raw
         /\ line_diagnostic (Z.of_nat k) raw = Some d)
       (diagnostics (handler result s))
  /\ forall before : list Diagnostic,
       diagnostics (handler result (set_diagnostics before s)) = diagnostics (handler result s).
Proof.
  split; [apply handler_classifier|]. split.
  - apply Forall_forall. intros d H. rewrite handler_classifier in H.
    apply classifier_In in H. exact H.
  - intros before. rewrite !handler_classifier. reflexivity.
Qed.

(** C5: every diagnostic the classifier emits has a zero-width range
    (start equals end), its line is the index of the line of the split
    stderr text it was made from, and its character is
    [Number.MAX_VALUE], the greatest integer a JavaScript number holds. *)
Theorem diagnostic_position (result : ExecResult) (s : ServerState) :
  Forall (fun d =>
    start (range d) = end_ (range d)
    /\ character (start (range d)) = Number_MAX_VALUE
    /\ exists (k : nat) (raw : jsstring),
         nth_error (JsString.split_lines (stderr result)) k = Some raw
         /\ line_diagnostic (Z.of_nat k) raw = Some d
         /\ line (start (range d)) = Z.of_nat k)
    (diagnostics (handler result s))
  /\ double_integer Number_MAX_VALUE
  /\ forall z : Z, double_integer z -> (z <= Number_MAX_VALUE)%Z.
Proof.
  split; [|apply Number_MAX_VALUE_greatest].
  apply Forall_forall. intros d H. rewrite handler_classifier in H.
  apply classifier_In in H. destruct H as (k & raw & Hk & Hd).
  destruct (line_diagnostic_line _ _ Hd) as (H1 & H2 & H3).
  repeat split; try assumption.
  exists k, raw. auto.
Qed.

(** What the scan of the first [i] lines tells about line [i] when the
    guard of the loop holds there: fewer diagnostics than the budget have
    been found, and all of them have been emitted. *)
Lemma guard_holds_at (lines : list jsstring) (s : ServerState) :
  let found := line_diagnostics 0 lines in
  less_than (loop_problems (scan lines s)) (maxNumberOfProblems s) = true ->
  List.length found < budget 0 (maxNumberOfProblems s)
  /\ loop_problems (scan lines s) = Z.of_nat (List.length found).
Proof.
  intros found. rewrite scan_problems. fold found.
  unfold less_than, budget. destruct (ToNumber (maxNumberOfProblems s)) as [n|]; [|discriminate].
  intros H. apply Z.ltb_lt in H. rewrite length_firstn in *.
  rewrite Z.sub_0_r. split; lia.
Qed.

(** C3, for the lines the loop reaches while the budget lasts: let line
    [i] of the split stderr text be scanned when fewer than the maximum
    number of diagnostics have been emitted, and let [t] be the line
    trimmed. If [t] starts with ["[WARNING] "] the next diagnostic emitted
    is a warning for line [i] whose message is the rest of [t] after the
    prefix; else if [t] starts with ["ERROR! "] it is an error with the rest
    of [t] as message; in both cases the problem count goes up by one.
    Otherwise no diagnostic is emitted for line [i] and the problem count
    stays as it was. *)
Theorem scanned_line_classified (result : ExecResult) (s : ServerState)
    (i : nat) (raw : jsstring) :
  let lines := JsString.split_lines (stderr result) in
  let t := JsString.trim raw in
  let before := loop_problems (scan (firstn i lines) s) in
  let after := loop_problems (scan (firstn (S i) lines) s) in
  nth_error lines i = Some raw ->
  less_than before (maxNumberOfProblems s) = true ->
  (JsString.startsWith t WARNING = true ->
     nth_error (diagnostics (handler result s)) (Z.to_nat before)
       = Some (diagnostic_at (Z.of_nat i) Warning (JsString.substring (JsString.length WARNING) t))
     /\ t = WARNING ++ JsString.substring (JsString.length WARNING) t
     /\ after = (before + 1)%Z)
  /\ (JsString.startsWith t WARNING = false -> JsString.startsWith t ERROR = true ->
     nth_error (diagnostics (handler result s)) (Z.to_nat before)
       = Some (diagnostic_at (Z.of_nat i) Error (JsString.substring (JsString.length ERROR) t))
     /\ t = ERROR ++ JsString.substring (JsString.length ERROR) t
     /\ after = (before + 1)%Z)
  /\ (JsString.startsWith t WARNING = false -> JsString.startsWith t ERROR = false ->
     Forall (fun d => line (start (range d)) <> Z.of_nat i) (diagnostics (handler result s))
     /\ after = before).
Proof.
  intros lines t before after Hraw Hguard.
  destruct (guard_holds_at _ _ Hguard) as (Hroom & Hbefore).
  fold before in Hbefore.
  pose proof (firstn_skipn_middle i lines Hraw) as Hsplit.
  assert (Hlen : List.length (firstn i lines) = i).
  { apply firstn_length_le. apply Nat.lt_le_incl. apply nth_error_Some.
    rewrite Hraw. discriminate. }
  assert (Hfound : line_diagnostics 0 lines =
            line_diagnostics 0 (firstn i lines)
            ++ line_diagnostics (Z.of_nat i) (raw :: skipn (S i) lines)).
  { rewrite <- Hsplit at 1. rewrite line_diagnostics_app, Hlen. reflexivity. }
  assert (Hnext : firstn (S i) lines = firstn i lines ++ [raw]).
  { rewrite <- Hsplit at 1.
    replace (S i) with (List.length (firstn i lines) + 1) by lia.
    rewrite firstn_app_2. reflexivity. }
  assert (Hafter : after =
            Z.of_nat (List.length (firstn (budget 0 (maxNumberOfProblems s))
              (line_diagnostics 0 (firstn i lines)
               ++ line_diagnostics (Z.of_nat i) [raw])))).
  { unfold after. rewrite scan_problems, Hnext, line_diagnostics_app, Hlen. reflexivity. }
  assert (Hemit : forall d,
            line_diagnostic (Z.of_nat i) raw = Some d ->
            nth_error (diagnostics (handler result s)) (Z.to_nat before) = Some d
            /\ after = (before + 1)%Z).
  { intros d Hd. split.
    - rewrite handler_classifier. unfold classifier. fold lines.
      rewrite nth_error_firstn, Hbefore, Nat2Z.id.
      apply Nat.ltb_lt in Hroom. rewrite Hroom.
      rewrite Hfound, nth_error_app2 by lia.
      rewrite Nat.sub_diag. simpl. rewrite Hd. reflexivity.
    - rewrite Hafter. simpl. rewrite Hd, length_firstn, length_app. simpl. lia. }
  unfold line_diagnostic in Hemit. fold t in Hemit.
  split; [|split].
  - intros Hw. rewrite Hw in Hemit.
    destruct (Hemit _ eq_refl) as (H1 & H2).
    split; [exact H1|]. split; [|exact H2].
    apply startsWith_app. exact Hw.
  - intros Hw He. rewrite Hw, He in Hemit.
    destruct (Hemit _ eq_refl) as (H1 & H2).
    split; [exact H1|]. split; [|exact H2].
    apply startsWith_app. exact He.
  - intros Hw He.
    assert (Hnone : line_diagnostic (Z.of_nat i) raw = None).
    { unfold line_diagnostic. fold t. rewrite Hw, He. reflexivity. }
    split.
    + apply Forall_forall. intros d Hin Hline.
      rewrite handler_classifier in Hin. apply classifier_In in Hin.
      destruct Hin as (k & raw' & Hk & Hd).
      destruct (line_diagnostic_line _ _ Hd) as (_ & Hl & _).
      rewrite Hl in Hline. apply Nat2Z.inj in Hline. subst k.
      fold lines in Hk. rewrite Hraw in Hk. injection Hk as <-.
      rewrite Hnone in Hd. discriminate.
    + rewrite Hafter. simpl. rewrite Hnone. simpl. rewrite app_nil_r.
      rewrite Hbefore, length_firstn. lia.
Qed.

Lemma scan_counts (lines : list jsstring) (s : ServerState) :
  loop_problems (scan lines s)
  = Z.of_nat (List.length (diagnostics (loop_heap (scan lines s)))).
Proof.
  rewrite scan_problems, scan_diagnostics. reflexivity.
Qed.

(** Once the guard fails, lines that follow are not looked at. *)
Lemma scan_stops (scanned remaining : list jsstring) (s : ServerState) :
  less_than (loop_problems (scan scanned s)) (maxNumberOfProblems s) = false ->
  scan (scanned ++ remaining) s = scan scanned s.
Proof.
  unfold scan. intros H. rewrite for_lines_app. cbv zeta.
  destruct (for_lines_frame scanned 0 0 (set_diagnostics [] s)) as (Hmax & _ & _).
  simpl in Hmax.
  rewrite for_lines_over by (rewrite Hmax; exact H).
  destruct (for_lines scanned 0 0 (set_diagnostics [] s)); reflexivity.
Qed.

(** C3 as it is worded, without the budget, fails: with a maximum of 1
    and the stderr text ["[WARNING] a\n[WARNING] b"], line 1 trimmed starts
    with ["[WARNING] "], and the run emits the warning of line 0 only. *)
Lemma second_warning_not_reported :
  let s := ChildProcess.heap (configured (number 1)) in
  let lines := JsString.split_lines (stderr two_warnings) in
  maxNumberOfProblems s = number 1
  /\ nth_error lines 1 = Some (str "[WARNING] b")
  /\ JsString.startsWith (JsString.trim (str "[WARNING] b")) WARNING = true
  /\ diagnostics (handler two_warnings s) = [diagnostic_at 0 Warning (str "a")]
  /\ ~ In (diagnostic_at 1 Warning (str "b")) (diagnostics (handler two_warnings s)).
Proof.
  repeat split; try reflexivity.
  intros [H|[]]. discriminate H.
Qed.

(** C4, for a maximum that may be negative: the number of diagnostics a
    run emits is never negative and at most the configured maximum, or 0
    when the maximum is negative; and as soon as the lines scanned so far
    have given the maximum, the loop is over: the lines that remain change
    neither the diagnostics nor the index the loop stopped at. *)
Theorem emitted_at_most_maximum (result : ExecResult) (s : ServerState) (m : Z) :
  maxNumberOfProblems s = number m ->
  let emitted := Z.of_nat (List.length (diagnostics (handler result s))) in
  (0 <= emitted <= Z.max 0 m)%Z
  /\ forall scanned remaining : list jsstring,
       JsString.split_lines (stderr result) = scanned ++ remaining ->
       (m <= Z.of_nat (List.length (diagnostics (loop_heap (scan scanned s)))))%Z ->
       scan (scanned ++ remaining) s = scan scanned s
       /\ handler result s = loop_heap (scan scanned s)
       /\ (loop_i (scan (scanned ++ remaining) s) <= Z.of_nat (List.length scanned))%Z.
Proof.
  intros Hm emitted. split.
  - unfold emitted. rewrite handler_classifier. unfold classifier.
    rewrite length_firstn, Hm. unfold budget. simpl. lia.
  - intros scanned remaining Hlines Hfull.
    assert (Hstop : scan (scanned ++ remaining) s = scan scanned s).
    { apply scan_stops. rewrite scan_counts, Hm. unfold less_than. simpl.
      apply Z.ltb_ge. exact Hfull. }
    split; [exact Hstop|]. split.
    + unfold handler. rewrite Hlines, Hstop. reflexivity.
    + rewrite Hstop. unfold scan.
      destruct (for_lines_spec scanned 0 0 (set_diagnostics [] s)) as (_ & _ & Hi).
      lia.
Qed.

(** C4 as it is worded fails for a negative maximum: configured with -1
    the server emits no diagnostic, and 0 is more than -1. *)
Lemma negative_maximum_exceeded :
  let s := ChildProcess.heap (configured (number (-1))) in
  maxNumberOfProblems s = number (-1)
  /\ diagnostics (handler silent s) = []
  /\ ~ (Z.of_nat (List.length (diagnostics (handler silent s))) <= -1)%Z.
Proof.
  repeat split. simpl. lia.
Qed.

(* ------------------------------------------------------------------ *)
(** ** The process runner *)

Section ChildProcessFacts.

Variable Heap : Type.

Lemma fresh_pids_boot (h : Heap) : ChildProcess.fresh_pids (ChildProcess.boot h).
Proof. constructor. Qed.

Lemma fresh_pids_exec (cmd : jsstring) (cb : ChildProcess.Callback Heap)
    (rt : ChildProcess.Runtime Heap) :
  ChildProcess.fresh_pids rt -> ChildProcess.fresh_pids (ChildProcess.exec cmd cb rt).
Proof.
  unfold ChildProcess.fresh_pids. simpl. intros H.
  apply Forall_app. split.
  - eapply Forall_impl; [|exact H]. simpl. intros child Hlt. lia.
  - constructor; [simpl; lia | constructor].
Qed.

Lemma fresh_pids_with_heap (f : Heap -> Heap) (rt : ChildProcess.Runtime Heap) :
  ChildProcess.fresh_pids rt -> ChildProcess.fresh_pids (ChildProcess.with_heap f rt).
Proof. intros H. exact H. Qed.

Lemma fresh_pids_exit (p : nat) (error : option ExecError) (out err : jsstring)
    (rt rt' : ChildProcess.Runtime Heap) :
  ChildProcess.fresh_pids rt ->
  ChildProcess.exit p error out err rt = Some rt' ->
  ChildProcess.fresh_pids rt'.
Proof.
  unfold ChildProcess.fresh_pids, ChildProcess.exit. intros H.
  destruct (find (ChildProcess.is_pid p) (ChildProcess.children rt)); [|discriminate].
  intros E. injection E as <-. simpl.
  apply Forall_forall. intros child Hin. apply filter_In in Hin.
  rewrite Forall_forall in H. apply H. tauto.
Qed.

(** No child has the next process id. *)
Lemma next_pid_unused (rt : ChildProcess.Runtime Heap) :
  ChildProcess.fresh_pids rt ->
  find (ChildProcess.is_pid (ChildProcess.next_pid rt)) (ChildProcess.children rt) = None
  /\ filter (fun c => negb (ChildProcess.is_pid (ChildProcess.next_pid rt) c))
       (ChildProcess.children rt) = ChildProcess.children rt.
Proof.
  unfold ChildProcess.fresh_pids. generalize (ChildProcess.next_pid rt) as p.
  induction (ChildProcess.children rt) as [|c cs IH]; intros p H; simpl.
  - auto.
  - inversion H as [|? ? Hc Hcs]; subst.
    assert (E : ChildProcess.is_pid p c = false).
    { unfold ChildProcess.is_pid. apply Nat.eqb_neq. lia. }
    rewrite E. simpl. destruct (IH p Hcs) as (H1 & H2).
    rewrite H1, H2. auto.
Qed.

(** The child started last is found by its process id, and it alone
    leaves the table when it ends. *)
Lemma last_child (cs : list (ChildProcess.Child Heap)) (c : ChildProcess.Child Heap) :
  Forall (fun c' => ChildProcess.pid c' < ChildProcess.pid c) cs ->
  find (ChildProcess.is_pid (ChildProcess.pid c)) (cs ++ [c]) = Some c
  /\ filter (fun c' => negb (ChildProcess.is_pid (ChildProcess.pid c) c')) (cs ++ [c]) = cs.
Proof.
  induction cs as [|c0 cs IH]; intros H; simpl.
  - unfold ChildProcess.is_pid. rewrite Nat.eqb_refl. auto.
  - inversion H as [|? ? Hc0 Hcs]; subst.
    assert (E : ChildProcess.is_pid (ChildProcess.pid c) c0 = false).
    { unfold ChildProcess.is_pid. apply Nat.eqb_neq. lia. }
    rewrite E. simpl. destruct (IH Hcs) as (H1 & H2).
    rewrite H1, H2. auto.
Qed.

(** The end of the child started last. *)
Lemma exit_started (cmd : jsstring) (cb : ChildProcess.Callback Heap)
    (rt : ChildProcess.Runtime Heap) (error : option ExecError) (out err : jsstring) :
  ChildProcess.fresh_pids rt ->
  ChildProcess.exit (ChildProcess.next_pid rt) error out err (ChildProcess.exec cmd cb rt)
  = Some {| ChildProcess.heap := cb error out err (ChildProcess.heap rt);
            ChildProcess.children := ChildProcess.children rt;
            ChildProcess.next_pid := S (ChildProcess.next_pid rt) |}.
Proof.
  intros H.
  destruct (last_child
    {| ChildProcess.pid := ChildProcess.next_pid rt; ChildProcess.command := cmd;
       ChildProcess.callback := cb |} H) as (Hfind & Hfilter).
  simpl in Hfind, Hfilter.
  unfold ChildProcess.exit, ChildProcess.exec. simpl.
  rewrite Hfind, Hfilter. reflexivity.
Qed.

(** The same when the heap has been written to since the child was started. *)
Lemma exit_started_later (cmd : jsstring) (cb : ChildProcess.Callback Heap)
    (f : Heap -> Heap) (rt : ChildProcess.Runtime Heap)
    (error : option ExecError) (out err : jsstring) :
  ChildProcess.fresh_pids rt ->
  ChildProcess.exit (ChildProcess.next_pid rt) error out err
    (ChildProcess.with_heap f (ChildProcess.exec cmd cb rt))
  = Some {| ChildProcess.heap := cb error out err (f (ChildProcess.heap rt));
            ChildProcess.children := ChildProcess.children rt;
            ChildProcess.next_pid := S (ChildProcess.next_pid rt) |}.
Proof.
  intros H.
  destruct (last_child
    {| ChildProcess.pid := ChildProcess.next_pid rt; ChildProcess.command := cmd;
       ChildProcess.callback := cb |} H) as (Hfind & Hfilter).
  simpl in Hfind, Hfilter.
  unfold ChildProcess.exit, ChildProcess.with_heap, ChildProcess.exec. simpl.
  rewrite Hfind, Hfilter. reflexivity.
Qed.

End ChildProcessFacts.

(** C9: every call of the runner starts one child process whose
    callback has not run yet; when the process ends, with or without an
    error, the result handler runs once, in the same way, on the captured
    stdout and stderr and on the exit code, which is 0 without an error and
    the error's code otherwise; the child is gone afterwards, so the handler
    cannot run a second time for that call. *)
Theorem exec_delivers_once (Heap : Type) (handleResult : ExecResult -> Heap -> Heap)
    (filename : jsstring) (cmdLineArgs : list jsstring) (rt : ChildProcess.Runtime Heap) :
  ChildProcess.fresh_pids rt ->
  let started := NodeExec.exec filename cmdLineArgs handleResult rt in
  let p := ChildProcess.next_pid rt in
  ChildProcess.heap started = ChildProcess.heap rt
  /\ map (fun c => (ChildProcess.pid c, ChildProcess.command c)) (ChildProcess.children started)
     = map (fun c => (ChildProcess.pid c, ChildProcess.command c)) (ChildProcess.children rt)
       ++ [(p, filename ++ str " " ++ JsString.join (str " ") cmdLineArgs)]
  /\ forall (error : option ExecError) (out err : jsstring),
       let result :=
         {| stdout := out; stderr := err;
            exitCode := match error with Some e => code e | None => number 0 end |} in
       let ended :=
         {| ChildProcess.heap := handleResult result (ChildProcess.heap rt);
            ChildProcess.children := ChildProcess.children rt;
            ChildProcess.next_pid := S p |} in
       ChildProcess.exit p error out err started = Some ended
       /\ forall (error' : option ExecError) (out' err' : jsstring),
            ChildProcess.exit p error' out' err' ended = None.
Proof.
  intros Hfresh started p. split; [reflexivity|]. split.
  - unfold started, NodeExec.exec, ChildProcess.exec. simpl.
    rewrite map_app. simpl. unfold JsString.concat. rewrite <- app_assoc. reflexivity.
  - intros error out err result ended. split.
    + unfold started, p, NodeExec.exec. cbv zeta.
      rewrite exit_started by exact Hfresh. reflexivity.
    + intros error' out' err'. unfold ChildProcess.exit, ended. simpl.
      destruct (next_pid_unused Hfresh) as (Hfind & _).
      fold p in Hfind. rewrite Hfind. reflexivity.
Qed.

(** The runner with a handler that counts its calls, for a command that
    the shell does not find. *)
Lemma exec_delivers_once_counted :
  ChildProcess.fresh_pids (ChildProcess.boot 0)
  /\ ChildProcess.exit 0 (Some {| code := number 127 |}) JsString.empty (str "not found")
       (NodeExec.exec (str "ansible-playbook") [str "-c"; str "local"]
          (fun _ calls => S calls) (ChildProcess.boot 0))
     = Some {| ChildProcess.heap := 1; ChildProcess.children := [];
               ChildProcess.next_pid := 1 |}.
Proof.
  split; [apply fresh_pids_boot|].
  exact (proj1 (proj2 (proj2
    (exec_delivers_once (fun _ calls => S calls) (str "ansible-playbook")
       [str "-c"; str "local"] (fresh_pids_boot 0)))
    (Some {| code := number 127 |}) JsString.empty (str "not found"))).
Defined.

(* ------------------------------------------------------------------ *)
(** ** Validation of a document *)

(** What [validateTextDocument] does for a document of the file scheme. *)
Lemma validate_file (playbook : TextDocument) (rt : Runtime) :
  JsString.startsWith (uri playbook) (str "file:") = true ->
  validateTextDocument playbook rt =
    Returned tt
      (ChildProcess.with_heap
         (send (PublishDiagnostics (uri playbook) (diagnostics (ChildProcess.heap rt))))
         (NodeExec.exec (str "ansible-playbook")
            [ str "-i"; JsString.QUOTE :: str "localhost," ++ [JsString.QUOTE];
              str "-c"; str "local"; str "--syntax-check"; JsString.slice 7 (uri playbook) ]
            handler
            (ChildProcess.with_heap (send (LogMessage (JsString.slice 7 (uri playbook)))) rt))).
Proof.
  intros H. unfold validateTextDocument. rewrite H. reflexivity.
Qed.

Lemma validate_other (playbook : TextDocument) (rt : Runtime) :
  JsString.startsWith (uri playbook) (str "file:") = false ->
  validateTextDocument playbook rt = Returned tt rt.
Proof.
  intros H. unfold validateTextDocument. rewrite H. reflexivity.
Qed.

(** Validation returns, and leaves the setting and the process ids in order. *)
Lemma validate_returns (playbook : TextDocument) (rt : Runtime) :
  exists rt' : Runtime,
    validateTextDocument playbook rt = Returned tt rt'
    /\ maxNumberOfProblems (ChildProcess.heap rt') = maxNumberOfProblems (ChildProcess.heap rt)
    /\ (ChildProcess.fresh_pids rt -> ChildProcess.fresh_pids rt').
Proof.
  destruct (JsString.startsWith (uri playbook) (str "file:")) eqn:E.
  - eexists. split; [apply validate_file; exact E|]. split; [reflexivity|].
    intros H. apply fresh_pids_with_heap. apply fresh_pids_exec. exact H.
  - exists rt. split; [apply validate_other; exact E|]. auto.
Qed.

Lemma forEach_validate_returns (docs : list TextDocument) (rt : Runtime) :
  exists rt' : Runtime,
    forEach docs validateTextDocument rt = Returned tt rt'
    /\ maxNumberOfProblems (ChildProcess.heap rt') = maxNumberOfProblems (ChildProcess.heap rt)
    /\ (ChildProcess.fresh_pids rt -> ChildProcess.fresh_pids rt').
Proof.
  revert rt. induction docs as [|doc docs IH]; intros rt; simpl.
  - exists rt. auto.
  - destruct (validate_returns doc rt) as (rt1 & E1 & M1 & F1).
    destruct (IH rt1) as (rt2 & E2 & M2 & F2).
    exists rt2. unfold bind. rewrite E1.
    split; [exact E2|]. split; [congruence | auto].
Qed.

(** Every handler keeps the process ids in order, so they are in order in
    every state the server reaches. *)
Lemma dispatch_fresh_pids (e : Event) (rt : Runtime) :
  ChildProcess.fresh_pids rt -> ChildProcess.fresh_pids (dispatch e rt).
Proof.
  intros H. destruct e as [docs | change | change | p error out err]; simpl.
  - exact H.
  - unfold onDidChangeContent.
    destruct (validate_returns (document change) rt) as (rt' & E & _ & F).
    rewrite E. simpl. auto.
  - destruct change as [[[[server_settings|]]|]]; try exact H.
    destruct (forEach_validate_returns
                (documents (ChildProcess.heap rt))
                (ChildProcess.with_heap
                   (set_maxNumberOfProblems
                      (or_else (AnsibleSettings.maxNumberOfProblems server_settings)
                               (number 100))) rt))
      as (rt' & E & _ & F).
    unfold onDidChangeConfiguration, bind. simpl. unfold bind in E. simpl in E.
    rewrite E. simpl. apply F. exact H.
  - destruct (ChildProcess.exit p error out err rt) as [rt'|] eqn:E; [|exact H].
    exact (fresh_pids_exit _ _ _ _ H E).
Qed.

Lemma run_fresh_pids (events : list Event) (docs : list TextDocument) :
  ChildProcess.fresh_pids (run events (ChildProcess.boot (loaded docs))).
Proof.
  unfold run.
  generalize (fresh_pids_boot (loaded docs)).
  generalize (ChildProcess.boot (loaded docs)) as rt.
  induction events as [|e events IH]; intros rt H; simpl.
  - exact H.
  - apply IH. apply dispatch_fresh_pids. exact H.
Qed.

(** The end of the process that a validation started: [handler] runs on
    the result, on the heap as the validation left it. *)
Lemma validate_then_exit (rt started : Runtime) (playbook : TextDocument)
    (error : option ExecError) (out err : jsstring) :
  JsString.startsWith (uri playbook) (str "file:") = true ->
  ChildProcess.fresh_pids rt ->
  validateTextDocument playbook rt = Returned tt started ->
  ChildProcess.exit (ChildProcess.next_pid rt) error out err started
  = Some {| ChildProcess.heap :=
              handler {| stdout := out; stderr := err;
                         exitCode := match error with Some e => code e | None => number 0 end |}
                      (ChildProcess.heap started);
            ChildProcess.children := ChildProcess.children rt;
            ChildProcess.next_pid := S (ChildProcess.next_pid rt) |}.
Proof.
  intros Hfile Hfresh E. rewrite (validate_file _ rt Hfile) in E.
  injection E as <-.
  exact (exit_started_later _ _ _ error out err
           (fresh_pids_with_heap
              (send (LogMessage (JsString.slice 7 (uri playbook)))) Hfresh)).
Qed.

(** C1: a validation of a file-scheme document publishes the value the
    diagnostics list has before the callback of the process it starts has
    run, that is what the previous run left there. When the process ends,
    the callback stores the classification of this run and publishes
    nothing; that classification is published by the next validation, the
    third event of the sequence change, end of the process, change. *)
Theorem validate_publishes_previous_run (rt : Runtime) (playbook : TextDocument) :
  JsString.startsWith (uri playbook) (str "file:") = true ->
  ChildProcess.fresh_pids rt ->
  exists started : Runtime,
    validateTextDocument playbook rt = Returned tt started
    /\ sent (ChildProcess.heap started)
       = sent (ChildProcess.heap rt)
         ++ [ LogMessage (JsString.slice 7 (uri playbook));
              PublishDiagnostics (uri playbook) (diagnostics (ChildProcess.heap rt)) ]
    /\ diagnostics (ChildProcess.heap started) = diagnostics (ChildProcess.heap rt)
    /\ forall (error : option ExecError) (out err : jsstring),
         let result :=
           {| stdout := out; stderr := err;
              exitCode := match error with Some e => code e | None => number 0 end |} in
         exists ended : Runtime,
           ChildProcess.exit (ChildProcess.next_pid rt) error out err started = Some ended
           /\ sent (ChildProcess.heap ended) = sent (ChildProcess.heap started)
           /\ diagnostics (ChildProcess.heap ended)
              = diagnostics (handler result (ChildProcess.heap started))
           /\ forall next : TextDocument,
                JsString.startsWith (uri next) (str "file:") = true ->
                exists again : Runtime,
                  validateTextDocument next ended = Returned tt again
                  /\ sent (ChildProcess.heap again)
                     = sent (ChildProcess.heap ended)
                       ++ [ LogMessage (JsString.slice 7 (uri next));
                            PublishDiagnostics (uri next)
                              (diagnostics (handler result (ChildProcess.heap started))) ]
                  /\ again
                     = run [ DidChangeContent {| document := playbook |};
                             ChildExit (ChildProcess.next_pid rt) error out err;
                             DidChangeContent {| document := next |} ] rt.
Proof.
  intros Hfile Hfresh.
  pose proof (validate_file playbook rt Hfile) as E.
  eexists. split; [exact E|].
  split; [simpl; rewrite <- app_assoc; reflexivity|].
  split; [reflexivity|].
  intros error out err result.
  pose proof (validate_then_exit playbook error out err Hfile Hfresh E) as Hexit.
  eexists. split; [exact Hexit|].
  split; [exact (proj2 (proj2 (handler_frame _ _)))|].
  split; [reflexivity|].
  intros next Hnext.
  eexists. split; [apply validate_file; exact Hnext|].
  split; [simpl; rewrite <- app_assoc; reflexivity|].
  unfold run. cbn [fold_left dispatch]. unfold onDidChangeContent. cbn [document].
  rewrite E. cbn [final]. rewrite Hexit.
  rewrite (validate_file next _ Hnext). reflexivity.
Qed.

(** The first validation of [play.yml] after the first configuration
    event publishes the empty list; the run reports a warning and an
    error, and the validation after it publishes these two. *)
Lemma validate_publishes_previous_run_play_yml :
  JsString.startsWith (uri play_yml) (str "file:") = true
  /\ ChildProcess.fresh_pids (configured (number 100))
  /\ exists started : Runtime,
       validateTextDocument play_yml (configured (number 100)) = Returned tt started
       /\ sent (ChildProcess.heap started)
          = [ LogMessage (str "/tmp/play.yml"); PublishDiagnostics (uri play_yml) [] ]
       /\ exists ended again : Runtime,
            ChildProcess.exit 0 (Some {| code := number 4 |}) JsString.empty
              (stderr warning_then_error) started = Some ended
            /\ sent (ChildProcess.heap ended) = sent (ChildProcess.heap started)
            /\ validateTextDocument play_yml ended = Returned tt again
            /\ sent (ChildProcess.heap again)
               = sent (ChildProcess.heap ended)
                 ++ [ LogMessage (str "/tmp/play.yml");
                      PublishDiagnostics (uri play_yml)
                        [ diagnostic_at 0 Warning (str "deprecated");
                          diagnostic_at 1 Error (str "bad module name") ] ].
Proof.
  split; [reflexivity|]. split; [constructor|].
  destruct (validate_publishes_previous_run (rt := configured (number 100)) play_yml
              eq_refl (Forall_nil _))
    as (started & E & Hsent & _ & Hrun).
  exists started. split; [exact E|]. split; [exact Hsent|].
  destruct (Hrun (Some {| code := number 4 |}) JsString.empty (stderr warning_then_error))
    as (ended & Hexit & Hquiet & _ & Hnext).
  destruct (Hnext play_yml eq_refl) as (again & Hagain & Hpublished & _).
  exists ended, again. split; [exact Hexit|]. split; [exact Hquiet|].
  split; [exact Hagain|].
  assert (Hmax : maxNumberOfProblems (ChildProcess.heap started) = number 100).
  { injection E as <-. reflexivity. }
  rewrite Hpublished, handler_classifier, Hmax. reflexivity.
Defined.

(** C7: for a document whose URI does not start with ["file:"],
    [validateTextDocument] returns at once and changes nothing: no process
    is started and nothing is written on the connection. *)
Theorem validate_ignores_other_schemes (rt : Runtime) (playbook : TextDocument) :
  JsString.startsWith (uri playbook) (str "file:") = false ->
  validateTextDocument playbook rt = Returned tt rt
  /\ ChildProcess.children (final (validateTextDocument playbook rt)) = ChildProcess.children rt
  /\ sent (ChildProcess.heap (final (validateTextDocument playbook rt)))
     = sent (ChildProcess.heap rt).
Proof.
  intros H. rewrite (validate_other _ rt H). auto.
Qed.

(** An untitled document on the configured server. *)
Lemma validate_ignores_untitled :
  JsString.startsWith (uri untitled) (str "file:") = false
  /\ validateTextDocument untitled (configured (number 100))
     = Returned tt (configured (number 100)).
Proof.
  split; [reflexivity|].
  exact (proj1 (validate_ignores_other_schemes (configured (number 100)) untitled eq_refl)).
Defined.

(** C8: for the document [file:///tmp/play.yml], [validateTextDocument]
    calls the runner with the command name ["ansible-playbook"] and the
    arguments [-i], ["localhost,"] (in double quotes), [-c], [local],
    [--syntax-check], [/tmp/play.yml], in this order; the last one is the
    URI without its first 7 code units. *)
Theorem play_yml_arguments (rt : Runtime) (v : Z) (text : jsstring) :
  let playbook := {| uri := str "file:///tmp/play.yml"; version := v; getText := text |} in
  let args :=
    [ str "-i"; JsString.QUOTE :: str "localhost," ++ [JsString.QUOTE];
      str "-c"; str "local"; str "--syntax-check"; str "/tmp/play.yml" ] in
  validateTextDocument playbook rt =
    Returned tt
      (ChildProcess.with_heap
         (send (PublishDiagnostics (uri playbook) (diagnostics (ChildProcess.heap rt))))
         (NodeExec.exec (str "ansible-playbook") args handler
            (ChildProcess.with_heap (send (LogMessage (str "/tmp/play.yml"))) rt)))
  /\ uri playbook = firstn 7 (uri playbook) ++ str "/tmp/play.yml"
  /\ List.length (firstn 7 (uri playbook)) = 7
  /\ JsString.slice 7 (uri playbook) = str "/tmp/play.yml"
  /\ map (@ChildProcess.command ServerState)
       (ChildProcess.children (final (validateTextDocument playbook rt)))
     = map (@ChildProcess.command ServerState) (ChildProcess.children rt)
       ++ [ str "ansible-playbook -i " ++ [JsString.QUOTE] ++ str "localhost,"
            ++ [JsString.QUOTE] ++ str " -c local --syntax-check /tmp/play.yml" ].
Proof.
  intros playbook args.
  split; [reflexivity|]. split; [reflexivity|]. split; [reflexivity|].
  split; [reflexivity|].
  simpl. rewrite map_app. reflexivity.
Qed.

(* ------------------------------------------------------------------ *)
(** ** The configuration *)

(** With the nested settings object present the handler returns and
    leaves [value || 100] in the setting. *)
Lemma configure_sets_maximum (v : jsval) (rt : Runtime) :
  exists rt' : Runtime,
    onDidChangeConfiguration (configuration v) rt = Returned tt rt'
    /\ maxNumberOfProblems (ChildProcess.heap rt') = or_else v (number 100).
Proof.
  destruct (forEach_validate_returns
              (documents (ChildProcess.heap rt))
              (ChildProcess.with_heap
                 (set_maxNumberOfProblems (or_else v (number 100))) rt))
    as (rt' & E & Hmax & _).
  exists rt'. split; [exact E|]. rewrite Hmax. reflexivity.
Qed.

(** C2, for a payload that carries the nested settings object: the
    setting resolves to 100 when the configured value is absent, null or
    0, and to the configured value otherwise. Without the nested settings
    object (or without any settings) the handler throws a TypeError and
    the state stays as it was. *)
Theorem configuration_resolved (rt : Runtime) :
  (forall v : jsval,
     exists rt' : Runtime,
       onDidChangeConfiguration (configuration v) rt = Returned tt rt'
       /\ let resolved := maxNumberOfProblems (ChildProcess.heap rt') in
          (v = undefined \/ v = null \/ v = number 0 -> resolved = number 100)
          /\ (forall n : Z, v = number n -> n <> 0%Z -> resolved = number n))
  /\ onDidChangeConfiguration {| settings := None |} rt = Threw TypeError rt
  /\ onDidChangeConfiguration
       {| settings := Some {| Settings.ansibleLanguageServer := None |} |} rt
     = Threw TypeError rt.
Proof.
  split; [|split; reflexivity].
  intros v.
  destruct (configure_sets_maximum v rt) as (rt' & E & Hmax).
  exists rt'. split; [exact E|].
  cbv zeta. rewrite Hmax. split.
  - intros [-> | [-> | ->]]; reflexivity.
  - intros n -> Hn. unfold or_else. simpl.
    apply Z.eqb_neq in Hn. rewrite Hn. reflexivity.
Qed.

(** The values 0 and 7 on a freshly loaded server. *)
Lemma configuration_resolved_0_and_7 :
  maxNumberOfProblems (ChildProcess.heap (configured (number 0))) = number 100
  /\ maxNumberOfProblems (ChildProcess.heap (configured (number 7))) = number 7.
Proof.
  split.
  - destruct (proj1 (configuration_resolved (ChildProcess.boot (loaded []))) (number 0))
      as (rt' & E & H0 & _).
    unfold configured. rewrite E. simpl. apply H0. auto.
  - destruct (proj1 (configuration_resolved (ChildProcess.boot (loaded []))) (number 7))
      as (rt' & E & _ & H7).
    unfold configured. rewrite E. simpl. apply (H7 7%Z eq_refl). discriminate.
Defined.

(** C2 as it is worded fails when the nested settings object is missing:
    the handler throws, and the setting of a freshly loaded server stays
    unset instead of becoming 100. *)
Lemma missing_settings_object_throws :
  let change := {| settings := Some {| Settings.ansibleLanguageServer := None |} |} in
  let rt := ChildProcess.boot (loaded []) in
  onDidChangeConfiguration change rt = Threw TypeError rt
  /\ maxNumberOfProblems (ChildProcess.heap (final (onDidChangeConfiguration change rt)))
     = undefined
  /\ maxNumberOfProblems (ChildProcess.heap (final (onDidChangeConfiguration change rt)))
     <> number 100.
Proof.
  repeat split. discriminate.
Qed.

(** C6: while [maxNumberOfProblems] is unset, which is how the module
    leaves it when loaded, [handler] emits no diagnostic whatever the
    stderr text is, because the guard of its loop is false; the default of
    100 is there once a configuration event that carries no value has been
    handled, and the same text then gives its diagnostics. *)
Theorem unset_maximum_emits_nothing (result : ExecResult) (s : ServerState) :
  maxNumberOfProblems s = undefined ->
  diagnostics (handler result s) = []
  /\ (forall problems : Z, less_than problems (maxNumberOfProblems s) = false)
  /\ (forall docs : list TextDocument, maxNumberOfProblems (loaded docs) = undefined)
  /\ (forall rt : Runtime,
        exists rt' : Runtime,
          onDidChangeConfiguration (configuration undefined) rt = Returned tt rt'
          /\ maxNumberOfProblems (ChildProcess.heap rt') = number 100)
  /\ diagnostics (handler warning_then_error (ChildProcess.heap (configured undefined)))
     = [ diagnostic_at 0 Warning (str "deprecated");
         diagnostic_at 1 Error (str "bad module name") ].
Proof.
  intros H. split.
  - rewrite handler_classifier, H. reflexivity.
  - split; [intros problems; rewrite H; reflexivity|].
    split; [reflexivity|]. split; [|reflexivity].
    intros rt.
    destruct (configure_sets_maximum undefined rt) as (rt' & E & H100).
    exists rt'. split; [exact E|]. exact H100.
Qed.

(** A warning and an error on the freshly loaded server. *)
Lemma unset_maximum_emits_nothing_loaded :
  maxNumberOfProblems (loaded []) = undefined
  /\ diagnostics (handler warning_then_error (loaded [])) = [].
Proof.
  split; [reflexivity|].
  exact (proj1 (@unset_maximum_emits_nothing warning_then_error (loaded []) eq_refl)).
Defined.

(* ------------------------------------------------------------------ *)
(** ** The theorems on sample runs *)

(** Line 1 of the warning-then-error run on a server configured with 100:
    the indented error line gives the second diagnostic. *)
Lemma scanned_line_classified_error_line :
  let s := ChildProcess.heap (configured (number 100)) in
  let lines := JsString.split_lines (stderr warning_then_error) in
  nth_error lines 1 = Some (str "  ERROR! bad module name ")
  /\ less_than (loop_problems (scan (firstn 1 lines) s)) (maxNumberOfProblems s) = true
  /\ nth_error (diagnostics (handler warning_then_error s)) 1
     = Some (diagnostic_at 1 Error (str "bad module name")).
Proof.
  split; [reflexivity|]. split; [reflexivity|].
  exact (proj1 (proj1 (proj2
    (@scanned_line_classified warning_then_error
       (ChildProcess.heap (configured (number 100))) 1
       (str "  ERROR! bad module name ") eq_refl eq_refl))
    eq_refl eq_refl)).
Defined.

(** Two warnings on a server configured with 1: one diagnostic, and the
    loop stops at index 1. *)
Lemma emitted_at_most_maximum_two_warnings :
  let s := ChildProcess.heap (configured (number 1)) in
  maxNumberOfProblems s = number 1
  /\ (0 <= Z.of_nat (List.length (diagnostics (handler two_warnings s))) <= 1)%Z
  /\ (loop_i (scan ([str "[WARNING] a"] ++ [str "[WARNING] b"]) s) <= 1)%Z.
Proof.
  split; [reflexivity|].
  destruct (@emitted_at_most_maximum two_warnings
              (ChildProcess.heap (configured (number 1))) 1 eq_refl) as (Hcount & Hstop).
  split; [exact Hcount|].
  destruct (Hstop [str "[WARNING] a"] [str "[WARNING] b"] eq_refl) as (_ & _ & Hi).
  - simpl. lia.
  - exact Hi.
Defined.

(** 2^53 is an integer a double holds, below [Number.MAX_VALUE]. *)
Lemma diagnostic_position_two_53 :
  double_integer (2 ^ 53) /\ (2 ^ 53 <= Number_MAX_VALUE)%Z.
Proof.
  assert (H : double_integer (2 ^ 53)).
  { exists 1%Z, 53%Z. repeat split; lia. }
  split; [exact H|].
  exact (proj2 (proj2 (diagnostic_position silent (loaded []))) (2 ^ 53)%Z H).
Defined.

(* ------------------------------------------------------------------ *)
(** ** More on strings: trimming and splitting *)

Lemma trimStart_blank (ws s : jsstring) :
  Forall (fun c => JsString.isWhiteSpace c = true) ws ->
  JsString.trimStart (ws ++ s) = JsString.trimStart s.
Proof.
  induction 1 as [|c ws Hc _ IH]; simpl; [reflexivity|].
  rewrite Hc. exact IH.
Qed.

(** What [trimStart] leaves starts with a code unit that is no white space. *)
Lemma trimStart_head (s : jsstring) (c : N) (r : jsstring) :
  JsString.trimStart s = c :: r -> JsString.isWhiteSpace c = false.
Proof.
  induction s as [|d s IH]; simpl; [discriminate|].
  destruct (JsString.isWhiteSpace d) eqn:E; [exact IH|].
  intros H. injection H as <- _. exact E.
Qed.

(** [trimStart] stops at a code unit that is no white space. *)
Lemma trimStart_stop (c : N) (s : jsstring) :
  JsString.isWhiteSpace c = false -> JsString.trimStart (c :: s) = c :: s.
Proof. intros H. simpl. rewrite H. reflexivity. Qed.

(** [trimStart] returns a suffix of its argument. *)
Lemma trimStart_suffix (s : jsstring) :
  exists ws : jsstring,
    s = ws ++ JsString.trimStart s /\ Forall (fun c => JsString.isWhiteSpace c = true) ws.
Proof.
  induction s as [|d s (ws & E & H)]; simpl.
  - exists []. auto.
  - destruct (JsString.isWhiteSpace d) eqn:Ed.
    + exists (d :: ws). split; [simpl; f_equal; exact E | constructor; assumption].
    + exists []. auto.
Qed.

Lemma trimEnd_blank (s ws : jsstring) :
  Forall (fun c => JsString.isWhiteSpace c = true) ws ->
  JsString.trimEnd (s ++ ws) = JsString.trimEnd s.
Proof.
  intros H. unfold JsString.trimEnd. rewrite rev_app_distr.
  rewrite trimStart_blank; [reflexivity|].
  apply Forall_rev. exact H.
Qed.

(** [trimEnd] keeps a first code unit that is no white space. *)
Lemma trimEnd_head (c : N) (s : jsstring) :
  JsString.isWhiteSpace c = false ->
  exists r : jsstring, JsString.trimEnd (c :: s) = c :: r.
Proof.
  intros Hc. unfold JsString.trimEnd. simpl.
  destruct (trimStart_suffix (rev s)) as (ws & E & Hws).
  destruct (JsString.trimStart (rev s)) as [|d r] eqn:Er; rewrite E.
  - rewrite app_nil_r. rewrite trimStart_blank by exact Hws.
    simpl. rewrite Hc. exists []. reflexivity.
  - pose proof (trimStart_head _ Er) as Hd.
    rewrite <- app_assoc, trimStart_blank by exact Hws.
    simpl. rewrite Hd.
    change (d :: r ++ [c]) with ((d :: r) ++ [c]).
    rewrite rev_app_distr. simpl. eexists. reflexivity.
Qed.

(** The trimmed string is empty or ends with a code unit that is no
    white space. *)
Lemma trim_last (s : jsstring) :
  JsString.trim s = []
  \/ exists (body : jsstring) (c : N),
       JsString.trim s = body ++ [c] /\ JsString.isWhiteSpace c = false.
Proof.
  unfold JsString.trim, JsString.trimEnd.
  destruct (JsString.trimStart (rev (JsString.trimStart s))) as [|c r] eqn:E.
  - left. reflexivity.
  - right. exists (rev r), c. split; [reflexivity|].
    exact (trimStart_head _ E).
Qed.

(** White space around a string does not survive [trim]. *)
Lemma trim_padded (before s after : jsstring) :
  Forall (fun c => JsString.isWhiteSpace c = true) before ->
  Forall (fun c => JsString.isWhiteSpace c = true) after ->
  JsString.trim (before ++ s ++ after) = JsString.trim s.
Proof.
  intros Hb Ha. unfold JsString.trim.
  rewrite trimStart_blank by exact Hb.
  destruct (trimStart_suffix s) as (ws & E & Hws).
  destruct (JsString.trimStart s) as [|c r] eqn:Es.
  - rewrite app_nil_r in E. subst ws.
    assert (Hall : Forall (fun c => JsString.isWhiteSpace c = true) (s ++ after)).
    { apply Forall_app. split; assumption. }
    rewrite <- (app_nil_r (s ++ after)). rewrite trimStart_blank by exact Hall.
    reflexivity.
  - pose proof (trimStart_head _ Es) as Hc.
    rewrite E. rewrite <- app_assoc, trimStart_blank by exact Hws.
    change ((c :: r) ++ after) with (c :: r ++ after).
    rewrite trimStart_stop by exact Hc.
    change (c :: r ++ after) with ((c :: r) ++ after).
    apply trimEnd_blank. exact Ha.
Qed.

(** Trimming keeps a property that all the code units have. *)
Lemma trim_Forall (P : N -> Prop) (s : jsstring) :
  Forall P s -> Forall P (JsString.trim s).
Proof.
  assert (Hstart : forall x : jsstring, Forall P x -> Forall P (JsString.trimStart x)).
  { intros x Hx. destruct (trimStart_suffix x) as (ws & E & _).
    rewrite E in Hx. apply Forall_app in Hx. tauto. }
  intros H. unfold JsString.trim, JsString.trimEnd.
  apply Forall_rev, Hstart, Forall_rev, Hstart, H.
Qed.

(** The cases of [split_from], as an induction principle: the end of the
    text, a line feed, a carriage return with its line feed, and any other
    code unit (a carriage return that no line feed follows included). *)
Lemma split_from_cases (P : jsstring -> jsstring -> list jsstring -> Prop) :
  (forall cur, P cur [] [cur]) ->
  (forall cur rest,
     P [] rest (JsString.split_from [] rest) ->
     P cur (JsString.LF :: rest) (cur :: JsString.split_from [] rest)) ->
  (forall cur rest,
     P [] rest (JsString.split_from [] rest) ->
     P cur (JsString.CR :: JsString.LF :: rest) (cur :: JsString.split_from [] rest)) ->
  (forall cur c rest,
     c <> JsString.LF ->
     P (cur ++ [c]) rest (JsString.split_from (cur ++ [c]) rest) ->
     P cur (c :: rest) (JsString.split_from (cur ++ [c]) rest)) ->
  forall cur s, P cur s (JsString.split_from cur s).
Proof.
  intros Hend Hlf Hcrlf Hother cur s.
  remember (List.length s) as n eqn:Hn.
  revert cur s Hn. induction n as [n IH] using lt_wf_ind. intros cur s Hn.
  destruct s as [|c rest]; [apply Hend|].
  simpl. destruct (N.eqb_spec c JsString.LF) as [E|Hc].
  - subst c. apply Hlf.
    apply (IH (List.length rest)); [simpl in Hn; lia | reflexivity].
  - destruct (N.eqb_spec c JsString.CR) as [E|Hc'].
    + subst c. destruct rest as [|d rest'].
      * apply Hother; [exact Hc|]. apply Hend.
      * destruct (N.eqb_spec d JsString.LF) as [E|Hd].
        -- subst d. apply Hcrlf.
           apply (IH (List.length rest')); [simpl in Hn; lia | reflexivity].
        -- apply Hother; [exact Hc|].
           apply (IH (List.length (d :: rest'))); [simpl in *; lia | reflexivity].
    + apply Hother; [exact Hc|].
      apply (IH (List.length rest)); [simpl in Hn; lia | reflexivity].
Qed.

(** A text has one more line than it has line feeds. *)
Lemma split_lines_length (s : jsstring) :
  List.length (JsString.split_lines s) = S (line_feeds s).
Proof.
  unfold JsString.split_lines. generalize (@nil N) as cur. intros cur.
  apply (split_from_cases (fun _ s out => List.length out = S (line_feeds s))).
  - reflexivity.
  - intros c0 rest H. simpl. rewrite H. reflexivity.
  - intros c0 rest H. simpl. rewrite H. reflexivity.
  - intros c0 c rest Hc H. rewrite H. unfold line_feeds. cbn [filter].
    destruct (N.eqb_spec JsString.LF c) as [E|_]; [congruence | reflexivity].
Qed.

(** No line of a text has a line feed in it. *)
Lemma split_lines_no_line_feed (s : jsstring) :
  Forall (Forall (fun c => c <> JsString.LF)) (JsString.split_lines s).
Proof.
  unfold JsString.split_lines.
  assert (H : Forall (fun c => c <> JsString.LF) (@nil N)) by constructor.
  revert H. generalize (@nil N) as cur. intros cur.
  apply (split_from_cases (fun cur _ out =>
           Forall (fun c => c <> JsString.LF) cur ->
           Forall (Forall (fun c => c <> JsString.LF)) out)).
  - intros c0 H. constructor; [exact H | constructor].
  - intros c0 rest IH H. constructor; [exact H|]. apply IH. constructor.
  - intros c0 rest IH H. constructor; [exact H|]. apply IH. constructor.
  - intros c0 c rest Hc IH H. apply IH. apply Forall_app. split; [exact H|].
    constructor; [exact Hc | constructor].
Qed.

(** A plain line is read through to its end. *)
Lemma split_from_plain (p cur rest : jsstring) :
  plain p ->
  JsString.split_from cur (p ++ rest) = JsString.split_from (cur ++ p) rest.
Proof.
  intros H. revert cur. induction H as [|c p [Hlf Hcr] _ IH]; intros cur; simpl.
  - rewrite app_nil_r. reflexivity.
  - destruct (N.eqb_spec c JsString.LF) as [E|_]; [contradiction|].
    destruct (N.eqb_spec c JsString.CR) as [E|_]; [contradiction|].
    rewrite IH. rewrite <- app_assoc. reflexivity.
Qed.

Lemma split_from_LF (cur rest : jsstring) :
  JsString.split_from cur ([JsString.LF] ++ rest) = cur :: JsString.split_from [] rest.
Proof. reflexivity. Qed.

Lemma split_from_CRLF (cur rest : jsstring) :
  JsString.split_from cur ([JsString.CR; JsString.LF] ++ rest)
  = cur :: JsString.split_from [] rest.
Proof. reflexivity. Qed.

Lemma split_from_join (sep : jsstring) (ps : list jsstring) (p cur : jsstring) :
  sep = [JsString.LF] \/ sep = [JsString.CR; JsString.LF] ->
  Forall plain (p :: ps) ->
  JsString.split_from cur (JsString.join sep (p :: ps)) = (cur ++ p) :: ps.
Proof.
  intros Hsep. revert p cur. induction ps as [|q ps IH]; intros p cur Hplain.
  - inversion Hplain; subst. cbn [JsString.join].
    rewrite <- (app_nil_r p) at 1. rewrite split_from_plain by assumption. reflexivity.
  - inversion Hplain as [|? ? Hp Hrest]; subst.
    change (JsString.join sep (p :: q :: ps))
      with (p ++ sep ++ JsString.join sep (q :: ps)).
    rewrite split_from_plain by exact Hp.
    destruct Hsep as [E | E]; rewrite E in *.
    + rewrite split_from_LF, (IH q [] Hrest). reflexivity.
    + rewrite split_from_CRLF, (IH q [] Hrest). reflexivity.
Qed.

(** Splitting undoes joining plain lines with line feeds, with or without
    carriage returns before them. *)
Lemma split_join (sep : jsstring) (ls : list jsstring) :
  sep = [JsString.LF] \/ sep = [JsString.CR; JsString.LF] ->
  ls <> [] ->
  Forall plain ls ->
  JsString.split_lines (JsString.join sep ls) = ls.
Proof.
  intros Hsep Hne Hplain. unfold JsString.split_lines.
  destruct ls as [|p ps]; [contradiction|].
  apply (split_from_join [] Hsep Hplain).
Qed.

(* ------------------------------------------------------------------ *)
(** ** More on [handler] *)

(** [handler] only writes the diagnostics list. *)
Lemma handler_result (result : ExecResult) (s : ServerState) :
  handler result s
  = set_diagnostics (classifier (stderr result) (maxNumberOfProblems s)) s.
Proof.
  pose proof (handler_classifier result s) as Hd.
  destruct (handler_frame result s) as (Hm & Hdocs & Hsent).
  destruct (handler result s) as [d m docs st]. simpl in *. subst.
  reflexivity.
Qed.

Lemma firstn_StronglySorted {A : Type} (R : A -> A -> Prop) (n : nat) (l : list A) :
  StronglySorted R l -> StronglySorted R (firstn n l).
Proof.
  intros H. revert n. induction H as [|a l Hl IH Ha]; intros n.
  - rewrite firstn_nil. constructor.
  - destruct n as [|n]; simpl; [constructor|].
    constructor; [apply IH|].
    apply Forall_forall. intros x Hx. apply firstn_In in Hx.
    rewrite Forall_forall in Ha. auto.
Qed.

(** The diagnostics of the lines come in line order, from the index of
    the first line on. *)
Lemma line_diagnostics_ascending (lines : list jsstring) (i : Z) :
  ascending (line_diagnostics i lines)
  /\ Forall (fun d => (i <= line_of d)%Z) (line_diagnostics i lines).
Proof.
  revert i. induction lines as [|raw lines IH]; intros i; simpl.
  - split; constructor.
  - destruct (IH (i + 1)%Z) as (Hs & Hf).
    assert (Hf' : Forall (fun d => (i <= line_of d)%Z) (line_diagnostics (i + 1) lines)).
    { eapply Forall_impl; [|exact Hf]. simpl. intros d Hd. lia. }
    destruct (line_diagnostic i raw) as [d0|] eqn:E; [|auto].
    destruct (line_diagnostic_line _ _ E) as (_ & Hl & _).
    split.
    + constructor; [exact Hs|].
      eapply Forall_impl; [|exact Hf]. simpl. intros d Hd.
      unfold line_of at 1. rewrite Hl. lia.
    + constructor; [unfold line_of; rewrite Hl; lia | exact Hf'].
Qed.

(** The last code unit of a string that ends a longer one. *)
Lemma tail_of_app (p msg body : jsstring) (c : N) :
  p ++ msg = body ++ [c] ->
  (msg = [] /\ p = body ++ [c]) \/ exists m : jsstring, msg = m ++ [c].
Proof.
  destruct msg as [|x msg] using rev_ind.
  - rewrite app_nil_r. auto.
  - rewrite app_assoc. intros H. apply app_inj_tail in H. destruct H as [_ ->].
    right. exists msg. reflexivity.
Qed.

(** The rest of a trimmed line after a prefix that ends with a space is
    not empty and does not end with white space. *)
Lemma message_after_prefix (raw prefix : jsstring) :
  JsString.startsWith (JsString.trim raw) (prefix ++ [JsString.SP]) = true ->
  exists (m : jsstring) (c : N),
    JsString.substring (JsString.length (prefix ++ [JsString.SP])) (JsString.trim raw)
    = m ++ [c]
    /\ JsString.isWhiteSpace c = false.
Proof.
  intros H. pose proof (startsWith_app _ _ H) as E.
  destruct (trim_last raw) as [Hnil | (body & c & Hbody & Hc)].
  - rewrite Hnil in E. destruct prefix; discriminate E.
  - rewrite Hbody in E at 1. symmetry in E.
    apply tail_of_app in E. destruct E as [(_ & E) | (m & E)].
    + apply app_inj_tail in E. destruct E as [_ E]. subst c. discriminate Hc.
    + exists m, c. auto.
Qed.

(** X1: a run of [handler] overwrites what the run before it left: the
    state after two runs is the state after the second one alone, so the
    callback that completes last wins, and running [handler] twice on the
    same result changes nothing the second time. *)
Theorem handler_last_run_wins (first second : ExecResult) (s : ServerState) :
  handler second (handler first s) = handler second s
  /\ handler first (handler first s) = handler first s.
Proof.
  assert (H : forall a b : ExecResult, handler b (handler a s) = handler b s).
  { intros a b. rewrite (handler_result b (handler a s)), (handler_result b s).
    destruct (handler_frame a s) as (Hm & Hdocs & Hsent).
    unfold set_diagnostics. rewrite Hm, Hdocs, Hsent. reflexivity. }
  split; apply H.
Qed.

(** X2: the diagnostics a run of [handler] leaves are in the order of
    the lines of the stderr text: their line numbers go up strictly, so no
    line has two diagnostics. *)
Theorem diagnostics_ascending (result : ExecResult) (s : ServerState) :
  ascending (diagnostics (handler result s)).
Proof.
  rewrite handler_classifier. unfold classifier, ascending.
  apply firstn_StronglySorted.
  apply (line_diagnostics_ascending (JsString.split_lines (stderr result)) 0).
Qed.

(** X3: every diagnostic [handler] emits is a warning or an error with
    the source ["ex"]; its message is never empty, does not end with white
    space and has no line feed in it. A line that is only a prefix, such as
    ["[WARNING] "], gives no diagnostic. *)
Theorem diagnostic_shape (result : ExecResult) (s : ServerState) :
  Forall (fun d =>
    (severity d = Warning \/ severity d = Error)
    /\ source d = str "ex"
    /\ (exists (m : jsstring) (c : N),
          message d = m ++ [c] /\ JsString.isWhiteSpace c = false)
    /\ Forall (fun c => c <> JsString.LF) (message d))
    (diagnostics (handler result s)).
Proof.
  apply Forall_forall. intros d Hd. rewrite handler_classifier in Hd.
  apply classifier_In in Hd. destruct Hd as (k & raw & Hk & Hd).
  assert (Hraw : Forall (fun c => c <> JsString.LF) (JsString.trim raw)).
  { apply trim_Forall.
    pose proof (split_lines_no_line_feed (stderr result)) as Hall.
    rewrite Forall_forall in Hall. apply Hall. eapply nth_error_In. exact Hk. }
  unfold line_diagnostic in Hd.
  destruct (JsString.startsWith (JsString.trim raw) WARNING) eqn:Hw.
  - injection Hd as <-. simpl.
    split; [auto|]. split; [reflexivity|]. split.
    + exact (message_after_prefix raw (str "[WARNING]") Hw).
    + rewrite (startsWith_app _ _ Hw) in Hraw. apply Forall_app in Hraw. apply Hraw.
  - destruct (JsString.startsWith (JsString.trim raw) ERROR) eqn:He; [|discriminate].
    injection Hd as <-. simpl.
    split; [auto|]. split; [reflexivity|]. split.
    + exact (message_after_prefix raw (str "ERROR!") He).
    + rewrite (startsWith_app _ _ He) in Hraw. apply Forall_app in Hraw. apply Hraw.
Qed.

(** X6: the line number of every diagnostic is a line of the stderr
    text: it is not negative and at most the number of line feeds of the
    text. *)
Theorem diagnostic_line_bound (result : ExecResult) (s : ServerState) :
  Forall (fun d => (0 <= line_of d <= Z.of_nat (line_feeds (stderr result)))%Z)
    (diagnostics (handler result s)).
Proof.
  apply Forall_forall. intros d Hd. rewrite handler_classifier in Hd.
  apply classifier_In in Hd. destruct Hd as (k & raw & Hk & Hd).
  destruct (line_diagnostic_line _ _ Hd) as (_ & Hl & _).
  assert (Hlt : k < List.length (JsString.split_lines (stderr result))).
  { apply nth_error_Some. rewrite Hk. discriminate. }
  rewrite split_lines_length in Hlt. unfold line_of. rewrite Hl. lia.
Qed.

(** The loop reads a line only through its trimmed form. *)
Lemma for_lines_trimmed (l1 l2 : list jsstring) (i p : Z) (s : ServerState) :
  Forall2 (fun a b => JsString.trim a = JsString.trim b) l1 l2 ->
  for_lines l1 i p s = for_lines l2 i p s.
Proof.
  intros H. revert i p s. induction H as [|a b l1 l2 Hab _ IH]; intros i p s; simpl.
  - reflexivity.
  - rewrite Hab. destruct (less_than p (maxNumberOfProblems s)); [|reflexivity].
    destruct (classify (JsString.trim b)) as [[sev|] msg]; apply IH.
Qed.

Lemma blank_plain (l : jsstring) : blank l -> plain l.
Proof.
  unfold blank, plain. intros H. eapply Forall_impl; [|exact H].
  simpl. tauto.
Qed.

Lemma blank_white (l : jsstring) :
  blank l -> Forall (fun c => JsString.isWhiteSpace c = true) l.
Proof.
  unfold blank. intros H. eapply Forall_impl; [|exact H].
  simpl. tauto.
Qed.

(** X4: the two line endings give the same result: for plain lines,
    [handler] leaves the same state whether the lines of the stderr text
    end with a line feed or with a carriage return and a line feed (and
    whatever stdout and the exit code are). *)
Theorem line_endings_equivalent (ls : list jsstring) (s : ServerState)
    (out out' : jsstring) (exit exit' : jsval) :
  ls <> [] ->
  Forall plain ls ->
  handler {| stdout := out; stderr := JsString.join [JsString.CR; JsString.LF] ls;
             exitCode := exit |} s
  = handler {| stdout := out'; stderr := JsString.join [JsString.LF] ls;
               exitCode := exit' |} s.
Proof.
  intros Hne Hplain. unfold handler. simpl.
  rewrite (split_join (or_intror eq_refl) Hne Hplain).
  rewrite (split_join (or_introl eq_refl) Hne Hplain).
  reflexivity.
Qed.

(** X5: indentation and trailing blanks do not count: when every line of
    one stderr text is a line of another with blanks (white space other
    than line breaks) put before and after it, [handler] leaves the same
    state for both texts. *)
Theorem padding_ignored (padded ls : list jsstring) (s : ServerState)
    (out out' : jsstring) (exit exit' : jsval) :
  ls <> [] ->
  Forall plain ls ->
  Forall2 (fun a b =>
    exists before after : jsstring,
      blank before /\ blank after /\ a = before ++ b ++ after) padded ls ->
  handler {| stdout := out; stderr := JsString.join [JsString.LF] padded;
             exitCode := exit |} s
  = handler {| stdout := out'; stderr := JsString.join [JsString.LF] ls;
               exitCode := exit' |} s.
Proof.
  intros Hne Hplain Hpad.
  assert (Hne' : padded <> []).
  { intros ->. inversion Hpad. subst. contradiction. }
  assert (Hplain' : Forall plain padded).
  { clear Hne Hne'. induction Hpad as [|a b l1 l2 (before & after & Hb & Ha & ->) _ IH].
    - constructor.
    - inversion Hplain; subst. constructor; [|apply IH; assumption].
      unfold plain. apply Forall_app. split; [apply blank_plain; exact Hb|].
      apply Forall_app. split; [assumption | apply blank_plain; exact Ha]. }
  assert (Htrim : Forall2 (fun a b => JsString.trim a = JsString.trim b) padded ls).
  { eapply Forall2_impl; [|exact Hpad]. simpl.
    intros a b (before & after & Hb & Ha & ->).
    apply trim_padded; apply blank_white; assumption. }
  unfold handler, scan. simpl.
  rewrite (split_join (or_introl eq_refl) Hne Hplain).
  rewrite (split_join (or_introl eq_refl) Hne' Hplain').
  f_equal. apply for_lines_trimmed. exact Htrim.
Qed.

(* ------------------------------------------------------------------ *)
(** ** More on validation and on the end of a process *)

(** All that a validation does, field by field. *)
Lemma validate_effect (playbook : TextDocument) (rt : Runtime) :
  exists rt' : Runtime,
    validateTextDocument playbook rt = Returned tt rt'
    /\ diagnostics (ChildProcess.heap rt') = diagnostics (ChildProcess.heap rt)
    /\ maxNumberOfProblems (ChildProcess.heap rt') = maxNumberOfProblems (ChildProcess.heap rt)
    /\ documents (ChildProcess.heap rt') = documents (ChildProcess.heap rt)
    /\ sent (ChildProcess.heap rt')
       = sent (ChildProcess.heap rt)
         ++ validation_messages (diagnostics (ChildProcess.heap rt)) playbook
    /\ ChildProcess.children rt'
       = ChildProcess.children rt ++ checker (ChildProcess.next_pid rt) playbook
    /\ ChildProcess.next_pid rt'
       = ChildProcess.next_pid rt
         + List.length (checker (ChildProcess.next_pid rt) playbook).
Proof.
  unfold validation_messages, checker, is_file.
  destruct (JsString.startsWith (uri playbook) (str "file:")) eqn:E.
  - eexists. split; [apply validate_file; exact E|].
    simpl. rewrite <- app_assoc.
    repeat split; try reflexivity. lia.
  - exists rt. split; [apply validate_other; exact E|].
    rewrite !app_nil_r. simpl. repeat split; try reflexivity. lia.
Qed.

Lemma publications_app (s : ServerState) (ms : list Message) (s' : ServerState) :
  sent s' = sent s ++ ms ->
  publications s'
  = publications s
    ++ flat_map (fun m =>
         match m with
         | PublishDiagnostics u ds => [(u, ds)]
         | LogMessage _ => []
         end) ms.
Proof.
  intros H. unfold publications. rewrite H. apply flat_map_app.
Qed.

(** A child whose process id no other child has ends alone. *)
Lemma exit_last (rt : Runtime) (cs : list (ChildProcess.Child ServerState))
    (c : ChildProcess.Child ServerState)
    (error : option ExecError) (out err : jsstring) :
  ChildProcess.children rt = cs ++ [c] ->
  Forall (fun c' => ChildProcess.pid c' < ChildProcess.pid c) cs ->
  ChildProcess.exit (ChildProcess.pid c) error out err rt
  = Some {| ChildProcess.heap := ChildProcess.callback c error out err (ChildProcess.heap rt);
            ChildProcess.children := cs;
            ChildProcess.next_pid := ChildProcess.next_pid rt |}.
Proof.
  intros Hcs Hlt. destruct (last_child c Hlt) as (Hfind & Hfilter).
  unfold ChildProcess.exit. rewrite Hcs, Hfind, Hfilter. reflexivity.
Qed.

Lemma handler_stderr_only (a b : ExecResult) (s : ServerState) :
  stderr a = stderr b -> handler a s = handler b s.
Proof.
  intros H. unfold handler. rewrite H. reflexivity.
Qed.

Lemma filter_pids_NoDup (f : ChildProcess.Child ServerState -> bool)
    (cs : list (ChildProcess.Child ServerState)) :
  NoDup (map (@ChildProcess.pid ServerState) cs) ->
  NoDup (map (@ChildProcess.pid ServerState) (filter f cs)).
Proof.
  induction cs as [|c cs IH]; simpl; intros H; [constructor|].
  inversion H as [|? ? Hnotin Hrest]; subst.
  destruct (f c); simpl; [|apply IH; exact Hrest].
  constructor; [|apply IH; exact Hrest].
  intros Hin. apply Hnotin. apply in_map_iff in Hin.
  destruct Hin as (x & Hx & Hin). apply filter_In in Hin.
  apply in_map_iff. exists x. tauto.
Qed.

(* ------------------------------------------------------------------ *)
(** ** What every state of the server satisfies *)

Lemma producible_nil : producible [].
Proof. exists silent, (loaded []). reflexivity. Qed.

Lemma consistent_boot (docs : list TextDocument) :
  consistent (ChildProcess.boot (loaded docs)).
Proof.
  unfold consistent. simpl.
  split; [constructor|]. split; [constructor|]. split; [constructor|].
  split; [left; reflexivity|]. split; [apply producible_nil|].
  split; [constructor | reflexivity].
Qed.

(** Writing to the heap without touching the two variables or the
    diagnostics notifications keeps the runtime consistent. *)
Lemma consistent_with_heap (f : ServerState -> ServerState) (rt : Runtime) :
  (forall s, diagnostics (f s) = diagnostics s) ->
  (forall s, publications (f s) = publications s) ->
  settled (maxNumberOfProblems (f (ChildProcess.heap rt))) ->
  consistent rt -> consistent (ChildProcess.with_heap f rt).
Proof.
  intros Hd Hp Hm (H1 & H2 & H3 & H4 & H5 & H6 & H7).
  unfold consistent. simpl. rewrite Hd, Hp. auto 10.
Qed.

Lemma consistent_validate (playbook : TextDocument) (rt : Runtime) :
  consistent rt -> consistent (final (validateTextDocument playbook rt)).
Proof.
  intros (H1 & H2 & H3 & H4 & H5 & H6 & H7).
  destruct (validate_effect playbook rt) as (rt' & E & Hd & Hm & _ & Hs & Hc & Hn).
  rewrite E. simpl.
  pose proof (@publications_app _ _ _ Hs) as Hp.
  unfold consistent, ChildProcess.fresh_pids.
  rewrite Hc, Hn, Hd, Hm, Hp. clear E Hd Hm Hs Hc Hn Hp.
  unfold checker, validation_messages.
  destruct (is_file playbook) eqn:Hfile; simpl.
  - unfold ChildProcess.fresh_pids in H1.
    split.
    { apply Forall_app. split.
      - eapply Forall_impl; [|exact H1]. simpl. intros child Hlt. lia.
      - constructor; [simpl; lia | constructor]. }
    split.
    { rewrite map_app. simpl. apply NoDup_app; [exact H2 | repeat constructor; auto |].
      intros x Hx [Hin | []]. subst x. apply in_map_iff in Hx.
      destruct Hx as (child & Hpid & Hin). rewrite Forall_forall in H1.
      specialize (H1 _ Hin). lia. }
    split.
    { apply Forall_app. split; [exact H3|].
      constructor; [|constructor]. simpl. eexists. reflexivity. }
    split; [exact H4|]. split; [exact H5|]. split.
    { apply Forall_app. split; [exact H6|].
      constructor; [|constructor]. simpl. split; [exact Hfile | exact H5]. }
    rewrite length_app. simpl. lia.
  - rewrite !app_nil_r, Nat.add_0_r. auto 10.
Qed.

Lemma consistent_forEach (docs : list TextDocument) (rt : Runtime) :
  consistent rt ->
  exists rt' : Runtime,
    forEach docs validateTextDocument rt = Returned tt rt' /\ consistent rt'.
Proof.
  revert rt. induction docs as [|doc docs IH]; intros rt H; simpl.
  - exists rt. auto.
  - pose proof (consistent_validate doc H) as H'.
    destruct (validate_effect doc rt) as (rt1 & E & _).
    rewrite E in H'. simpl in H'.
    destruct (IH rt1 H') as (rt2 & E2 & H2).
    exists rt2. unfold bind. rewrite E. auto.
Qed.

Lemma settled_or_else (v : jsval) : settled (or_else v (number 100)).
Proof.
  right. destruct v as [| |n]; simpl.
  - exists 100%Z. split; [lia | reflexivity].
  - exists 100%Z. split; [lia | reflexivity].
  - unfold or_else. simpl. destruct (Z.eqb_spec n 0) as [->|Hn]; simpl.
    + exists 100%Z. split; [lia | reflexivity].
    + exists n. auto.
Qed.

(** The end of a child in a consistent runtime: [handler] runs on the
    result. *)
Lemma consistent_exit (p : nat) (error : option ExecError) (out err : jsstring)
    (rt rt' : Runtime) :
  consistent rt ->
  ChildProcess.exit p error out err rt = Some rt' ->
  consistent rt'
  /\ ChildProcess.heap rt' = handler (exec_result error out err) (ChildProcess.heap rt)
  /\ ChildProcess.children rt'
     = filter (fun c => negb (ChildProcess.is_pid p c)) (ChildProcess.children rt)
  /\ ChildProcess.next_pid rt' = ChildProcess.next_pid rt.
Proof.
  intros (H1 & H2 & H3 & H4 & H5 & H6 & H7) E.
  unfold ChildProcess.exit in E.
  destruct (find (ChildProcess.is_pid p) (ChildProcess.children rt)) as [c|] eqn:Hfind;
    [|discriminate].
  injection E as <-. simpl.
  apply find_some in Hfind. destruct Hfind as [Hin _].
  rewrite Forall_forall in H3. destruct (H3 _ Hin) as (r0 & Hcb).
  rewrite Hcb.
  assert (Hheap : NodeExec.on_exit r0 handler error out err (ChildProcess.heap rt)
                  = handler (exec_result error out err) (ChildProcess.heap rt)).
  { apply handler_stderr_only. reflexivity. }
  rewrite Hheap.
  destruct (handler_frame (exec_result error out err) (ChildProcess.heap rt))
    as (Hm & _ & Hs).
  split; [|auto].
  unfold consistent, ChildProcess.fresh_pids, publications. simpl.
  rewrite Hm, Hs. fold (publications (ChildProcess.heap rt)).
  split.
  { apply Forall_forall. intros child Hc. apply filter_In in Hc.
    unfold ChildProcess.fresh_pids in H1. rewrite Forall_forall in H1.
    apply H1. tauto. }
  split; [apply filter_pids_NoDup; exact H2|].
  split.
  { apply Forall_forall. intros child Hc. apply filter_In in Hc. apply H3. tauto. }
  split; [exact H4|].
  split; [eexists; eexists; reflexivity|].
  auto.
Qed.

Lemma consistent_dispatch (e : Event) (rt : Runtime) :
  consistent rt -> consistent (dispatch e rt).
Proof.
  intros H. destruct e as [docs | change | change | p error out err]; simpl.
  - apply consistent_with_heap; try reflexivity; [apply H | exact H].
  - apply consistent_validate. exact H.
  - destruct change as [[[[server_settings|]]|]]; try exact H.
    assert (H' : consistent
              (ChildProcess.with_heap
                 (set_maxNumberOfProblems
                    (or_else (AnsibleSettings.maxNumberOfProblems server_settings)
                             (number 100))) rt)).
    { apply consistent_with_heap; try reflexivity; [apply settled_or_else | exact H]. }
    destruct (consistent_forEach
                (documents (ChildProcess.heap rt)) H') as (rt' & E & Hrt').
    unfold onDidChangeConfiguration, bind. simpl. unfold bind in E. simpl in E.
    rewrite E. exact Hrt'.
  - destruct (ChildProcess.exit p error out err rt) as [rt'|] eqn:E; [|exact H].
    apply (consistent_exit _ _ _ _ H E).
Qed.

Lemma consistent_receive (m : Incoming) (s : Session) :
  consistent (runtime s) -> consistent (runtime (receive m s)).
Proof.
  intros H. destruct m as [e | params | change | pos | item]; simpl; try exact H.
  - apply consistent_dispatch. exact H.
  - apply (consistent_with_heap
             (send (LogMessage (str "Initializing Ansible Language Server")))).
    + reflexivity.
    + intros h. unfold publications. simpl. rewrite flat_map_app. simpl.
      apply app_nil_r.
    + apply H.
    + exact H.
  - apply (consistent_with_heap
             (send (LogMessage (str "We recevied a file change event")))).
    + reflexivity.
    + intros h. unfold publications. simpl. rewrite flat_map_app. simpl.
      apply app_nil_r.
    + apply H.
    + exact H.
Qed.

Lemma consistent_serve (messages : list Incoming) (s : Session) :
  consistent (runtime s) -> consistent (runtime (serve messages s)).
Proof.
  unfold serve. revert s. induction messages as [|m messages IH]; intros s H; simpl.
  - exact H.
  - apply IH. apply consistent_receive. exact H.
Qed.

Lemma consistent_session (messages : list Incoming) (docs : list TextDocument) :
  consistent (runtime (serve messages (fresh_session docs))).
Proof. apply consistent_serve. apply consistent_boot. Qed.

(** X7: in every state the server reaches, the end of a process has the
    same effect whatever the exit status and stdout are: only stderr
    counts. If the process is a child of the server, the diagnostics list
    becomes the one [handler] computes from the result; if it is not,
    nothing changes. *)
Theorem exit_status_ignored (messages : list Incoming) (docs : list TextDocument)
    (p : nat) (error error' : option ExecError) (out out' err : jsstring) :
  let rt := runtime (serve messages (fresh_session docs)) in
  dispatch (ChildExit p error out err) rt = dispatch (ChildExit p error' out' err) rt
  /\ diagnostics (ChildProcess.heap (dispatch (ChildExit p error out err) rt))
     = if existsb (ChildProcess.is_pid p) (ChildProcess.children rt)
       then diagnostics (handler (exec_result error out err) (ChildProcess.heap rt))
       else diagnostics (ChildProcess.heap rt).
Proof.
  intros rt. pose proof (consistent_session messages docs) as H. fold rt in H.
  destruct H as (_ & _ & H3 & _).
  unfold dispatch, ChildProcess.exit.
  destruct (find (ChildProcess.is_pid p) (ChildProcess.children rt)) as [c|] eqn:Hfind.
  - pose proof (find_some _ _ Hfind) as [Hin Hp].
    rewrite Forall_forall in H3. destruct (H3 _ Hin) as (r0 & Hcb).
    rewrite Hcb. simpl. split.
    + reflexivity.
    + assert (Hex : existsb (ChildProcess.is_pid p) (ChildProcess.children rt) = true).
      { apply existsb_exists. exists c. auto. }
      rewrite Hex. reflexivity.
  - split; [reflexivity|].
    assert (Hex : existsb (ChildProcess.is_pid p) (ChildProcess.children rt) = false).
    { apply not_true_is_false. intros Hex. apply existsb_exists in Hex.
      destruct Hex as (c & Hin & Hp).
      apply (find_none _ _ Hfind) in Hin. congruence. }
    rewrite Hex. reflexivity.
Qed.

(** All that revalidating a list of documents does. *)
Lemma forEach_effect (docs : list TextDocument) (rt : Runtime) :
  exists rt' : Runtime,
    forEach docs validateTextDocument rt = Returned tt rt'
    /\ diagnostics (ChildProcess.heap rt') = diagnostics (ChildProcess.heap rt)
    /\ maxNumberOfProblems (ChildProcess.heap rt') = maxNumberOfProblems (ChildProcess.heap rt)
    /\ documents (ChildProcess.heap rt') = documents (ChildProcess.heap rt)
    /\ sent (ChildProcess.heap rt')
       = sent (ChildProcess.heap rt)
         ++ flat_map (validation_messages (diagnostics (ChildProcess.heap rt))) docs
    /\ List.length (ChildProcess.children rt')
       = List.length (ChildProcess.children rt) + List.length (filter is_file docs).
Proof.
  revert rt. induction docs as [|doc docs IH]; intros rt; simpl.
  - exists rt. rewrite app_nil_r, Nat.add_0_r. auto 10.
  - destruct (validate_effect doc rt) as (rt1 & E1 & Hd1 & Hm1 & Hdocs1 & Hs1 & Hc1 & _).
    destruct (IH rt1) as (rt2 & E2 & Hd2 & Hm2 & Hdocs2 & Hs2 & Hc2).
    exists rt2. unfold bind. rewrite E1.
    split; [exact E2|]. split; [congruence|]. split; [congruence|].
    split; [congruence|]. split.
    + rewrite Hs2, Hs1, Hd1, app_assoc. reflexivity.
    + rewrite Hc2, Hc1, length_app. unfold checker.
      destruct (is_file doc); simpl; lia.
Qed.

(** X9: a configuration change that carries the nested settings object
    revalidates every tracked document in order. Each document of the file
    scheme gets one log line, one diagnostics notification and one new
    process, the other documents nothing; every notification carries the
    same list, the one the diagnostics variable held before the event,
    whatever the document is; the list itself is not changed. *)
Theorem configuration_revalidates (v : jsval) (rt : Runtime) :
  exists rt' : Runtime,
    onDidChangeConfiguration (configuration v) rt = Returned tt rt'
    /\ sent (ChildProcess.heap rt')
       = sent (ChildProcess.heap rt)
         ++ flat_map (validation_messages (diagnostics (ChildProcess.heap rt)))
              (documents (ChildProcess.heap rt))
    /\ diagnostics (ChildProcess.heap rt') = diagnostics (ChildProcess.heap rt)
    /\ documents (ChildProcess.heap rt') = documents (ChildProcess.heap rt)
    /\ List.length (ChildProcess.children rt')
       = List.length (ChildProcess.children rt)
         + List.length (filter is_file (documents (ChildProcess.heap rt))).
Proof.
  destruct (forEach_effect
              (documents (ChildProcess.heap rt))
              (ChildProcess.with_heap
                 (set_maxNumberOfProblems (or_else v (number 100))) rt))
    as (rt' & E & Hd & _ & Hdocs & Hs & Hc).
  exists rt'. split; [exact E|]. auto.
Qed.

(** X10: whatever messages the server has handled, the maximum in force
    is unset or a number other than 0; it is never 0 and never null. *)
Theorem setting_never_zero (messages : list Incoming) (docs : list TextDocument) :
  let max := maxNumberOfProblems
               (ChildProcess.heap (runtime (serve messages (fresh_session docs)))) in
  max = undefined \/ exists n : Z, n <> 0%Z /\ max = number n.
Proof.
  destruct (consistent_session messages docs) as (_ & _ & _ & H & _). exact H.
Qed.

(** X11: whatever messages the server has handled, every diagnostics
    notification it has written is for a URI that starts with ["file:"]
    and carries a list that a run of [handler] leaves. *)
Theorem publications_for_files_only (messages : list Incoming) (docs : list TextDocument) :
  Forall (fun ud =>
    JsString.startsWith (fst ud) (str "file:") = true
    /\ exists (result : ExecResult) (s : ServerState),
         snd ud = diagnostics (handler result s))
    (publications (ChildProcess.heap (runtime (serve messages (fresh_session docs))))).
Proof.
  destruct (consistent_session messages docs) as (_ & _ & _ & _ & _ & H & _). exact H.
Qed.

(** X12: whatever messages the server has handled, it has started
    exactly as many processes as it has written diagnostics notifications
    (the next process id is that number); the processes that have not
    ended have distinct ids, and there are at most that many. *)
Theorem one_process_per_publication (messages : list Incoming) (docs : list TextDocument) :
  let rt := runtime (serve messages (fresh_session docs)) in
  ChildProcess.next_pid rt = List.length (publications (ChildProcess.heap rt))
  /\ NoDup (map (@ChildProcess.pid ServerState) (ChildProcess.children rt))
  /\ List.length (ChildProcess.children rt) <= ChildProcess.next_pid rt.
Proof.
  intros rt. destruct (consistent_session messages docs) as (H1 & H2 & _ & _ & _ & _ & H7).
  fold rt in H1, H2, H7. split; [exact H7|]. split; [exact H2|].
  rewrite <- (length_map (@ChildProcess.pid ServerState)).
  rewrite <- (length_seq (ChildProcess.next_pid rt) 0).
  apply NoDup_incl_length; [exact H2|].
  intros x Hx. apply in_map_iff in Hx. destruct Hx as (c & <- & Hc).
  unfold ChildProcess.fresh_pids in H1. rewrite Forall_forall in H1.
  apply in_seq. specialize (H1 _ Hc). lia.
Qed.

(** With the maximum unset [handler] leaves the empty list. *)
Lemma handler_unset (result : ExecResult) (s : ServerState) :
  maxNumberOfProblems s = undefined -> diagnostics (handler result s) = [].
Proof.
  intros H. rewrite handler_classifier, H. reflexivity.
Qed.

(** Before the first configuration change the runtime stays as loaded:
    the maximum unset, the list empty, every notification empty. *)
Lemma unconfigured_receive (m : Incoming) (s : Session) :
  is_configuration m = false ->
  consistent (runtime s) ->
  let h := ChildProcess.heap (runtime s) in
  let h' := ChildProcess.heap (runtime (receive m s)) in
  maxNumberOfProblems h = undefined /\ diagnostics h = []
  /\ Forall (fun ud => snd ud = []) (publications h) ->
  maxNumberOfProblems h' = undefined /\ diagnostics h' = []
  /\ Forall (fun ud => snd ud = []) (publications h').
Proof.
  intros Hm Hc h h' (Hmax & Hd & Hp). subst h h'.
  destruct m as [[docs | change | change | p error out err] | params | change | pos | item];
    simpl in *; try discriminate; auto.
  - unfold onDidChangeContent.
    destruct (validate_effect (document change) (runtime s))
      as (rt' & E & Hd' & Hm' & _ & Hs' & _).
    rewrite E. simpl. rewrite Hd', Hm', (@publications_app _ _ _ Hs').
    split; [exact Hmax|]. split; [exact Hd|].
    apply Forall_app. split; [exact Hp|].
    unfold validation_messages. rewrite Hd.
    destruct (is_file (document change)); simpl; repeat constructor.
  - destruct (ChildProcess.exit p error out err (runtime s)) as [rt'|] eqn:E; [|auto].
    destruct (consistent_exit _ _ _ _ Hc E) as (_ & Hheap & _).
    rewrite Hheap.
    destruct (handler_frame (exec_result error out err) (ChildProcess.heap (runtime s)))
      as (Hm' & _ & Hs').
    rewrite Hm'. split; [exact Hmax|]. split; [apply handler_unset; exact Hmax|].
    unfold publications. rewrite Hs'. exact Hp.
  - unfold publications. simpl. rewrite flat_map_app. simpl. rewrite app_nil_r. auto.
  - unfold publications. simpl. rewrite flat_map_app. simpl. rewrite app_nil_r. auto.
Qed.

(** X13: as long as no configuration change has arrived, whatever else
    the server has handled (document changes, ends of processes with any
    stderr text), the maximum is unset, the diagnostics list is empty, and
    every diagnostics notification written so far carries the empty list. *)
Theorem nothing_reported_before_configuration
    (messages : list Incoming) (docs : list TextDocument) :
  forallb (fun m => negb (is_configuration m)) messages = true ->
  let h := ChildProcess.heap (runtime (serve messages (fresh_session docs))) in
  maxNumberOfProblems h = undefined
  /\ diagnostics h = []
  /\ Forall (fun ud => snd ud = []) (publications h).
Proof.
  intros Hall.
  assert (Hstart : consistent (runtime (fresh_session docs))) by apply consistent_boot.
  assert (Hinit :
    maxNumberOfProblems (ChildProcess.heap (runtime (fresh_session docs))) = undefined
    /\ diagnostics (ChildProcess.heap (runtime (fresh_session docs))) = []
    /\ Forall (fun ud => snd ud = [])
         (publications (ChildProcess.heap (runtime (fresh_session docs))))).
  { repeat split. constructor. }
  revert Hstart Hinit. generalize (fresh_session docs) as s.
  unfold serve. induction messages as [|m messages IH]; intros s Hc Hinv; simpl.
  - exact Hinv.
  - simpl in Hall. apply andb_true_iff in Hall. destruct Hall as [Hm Hall].
    apply negb_true_iff in Hm.
    apply (IH Hall).
    + apply consistent_receive. exact Hc.
    + apply (unconfigured_receive m s Hm Hc). exact Hinv.
Qed.

(** X16: a validation of a document of the file scheme starts one
    process, with the next process id, whose command line is
    [ansible-playbook -i "localhost," -c local --syntax-check] followed by
    a space and the target, with no quoting or decoding of the target. The
    target is what follows the first 7 code units of the URI: the two code
    units after ["file:"] are dropped whatever they are, and a URI of at
    most 7 code units gives the empty target. *)
Theorem validation_command_line (rt : Runtime) (playbook : TextDocument) :
  is_file playbook = true ->
  let rt' := final (validateTextDocument playbook rt) in
  map (fun c => (ChildProcess.pid c, ChildProcess.command c)) (ChildProcess.children rt')
  = map (fun c => (ChildProcess.pid c, ChildProcess.command c)) (ChildProcess.children rt)
    ++ [ (ChildProcess.next_pid rt, syntax_check (JsString.slice 7 (uri playbook))) ]
  /\ (exists rest : jsstring,
        uri playbook = str "file:" ++ rest
        /\ JsString.slice 7 (uri playbook) = skipn 2 rest)
  /\ (List.length (uri playbook) <= 7 -> JsString.slice 7 (uri playbook) = []).
Proof.
  intros Hfile rt'.
  destruct (validate_effect playbook rt) as (rt1 & E & _ & _ & _ & _ & Hc & _).
  split.
  - unfold rt'. rewrite E. simpl. rewrite Hc, map_app. unfold checker.
    rewrite Hfile. reflexivity.
  - split.
    + exists (skipn 5 (uri playbook)). split.
      * exact (startsWith_app _ _ Hfile).
      * unfold JsString.slice. rewrite skipn_skipn. reflexivity.
    + intros Hlen. apply skipn_all2. exact Hlen.
Qed.

(** X8: there is no cancellation and no isolation between documents.
    When document [a] and then document [b] are validated and the process
    of [b] ends before the process of [a], the diagnostics list ends up
    with the result of [a], the older request, and the stderr of [b] has no
    part in it; the next validation of [b] publishes, for the URI of [b],
    the diagnostics computed from the output of [a]. *)
Theorem older_callback_wins (rt : Runtime) (a b : TextDocument)
    (errorA errorB : option ExecError) (outA outB errA errB : jsstring) :
  is_file a = true ->
  is_file b = true ->
  ChildProcess.fresh_pids rt ->
  let n := ChildProcess.next_pid rt in
  let resultA := exec_result errorA outA errA in
  let rt' :=
    run [ DidChangeContent {| document := a |};
          DidChangeContent {| document := b |};
          ChildExit (S n) errorB outB errB;
          ChildExit n errorA outA errA;
          DidChangeContent {| document := b |} ] rt in
  diagnostics (ChildProcess.heap rt')
  = diagnostics (handler resultA (ChildProcess.heap rt))
  /\ publications (ChildProcess.heap rt')
     = publications (ChildProcess.heap rt)
       ++ [ (uri a, diagnostics (ChildProcess.heap rt));
            (uri b, diagnostics (ChildProcess.heap rt));
            (uri b, diagnostics (handler resultA (ChildProcess.heap rt))) ]
  /\ map (@ChildProcess.pid ServerState) (ChildProcess.children rt')
     = map (@ChildProcess.pid ServerState) (ChildProcess.children rt) ++ [S (S n)].
Proof.
  intros Ha Hb Hfresh n resultA rt'.
  destruct (validate_effect a rt) as (rt1 & E1 & Hd1 & Hm1 & _ & Hs1 & Hc1 & Hn1).
  destruct (validate_effect b rt1) as (rt2 & E2 & Hd2 & Hm2 & _ & Hs2 & Hc2 & Hn2).
  unfold checker, validation_messages in *.
  rewrite Ha in Hc1, Hn1, Hs1. rewrite Hb in Hc2, Hn2, Hs2.
  simpl in Hn1, Hn2. fold n in Hc1, Hn1. rewrite Nat.add_1_r in Hn1, Hn2.
  rewrite Hn1 in Hc2, Hn2.
  (* the process of b ends *)
  assert (X3 : ChildProcess.exit (S n) errorB outB errB rt2
               = Some {| ChildProcess.heap :=
                           handler (exec_result errorB outB errB) (ChildProcess.heap rt2);
                         ChildProcess.children := ChildProcess.children rt1;
                         ChildProcess.next_pid := S (S n) |}).
  { rewrite <- Hn2.
    match type of Hc2 with
    | _ = _ ++ [?c] => apply (@exit_last rt2 _ c errorB outB errB Hc2)
    end.
    rewrite Hc1. apply Forall_app. split.
    - eapply Forall_impl; [|exact Hfresh]. simpl. intros child Hlt. fold n in Hlt. lia.
    - constructor; [simpl; lia | constructor]. }
  (* then the process of a *)
  assert (X4 : ChildProcess.exit n errorA outA errA
                 {| ChildProcess.heap :=
                      handler (exec_result errorB outB errB) (ChildProcess.heap rt2);
                    ChildProcess.children := ChildProcess.children rt1;
                    ChildProcess.next_pid := S (S n) |}
               = Some {| ChildProcess.heap :=
                           handler resultA
                             (handler (exec_result errorB outB errB) (ChildProcess.heap rt2));
                         ChildProcess.children := ChildProcess.children rt;
                         ChildProcess.next_pid := S (S n) |}).
  { match goal with
    | |- ChildProcess.exit _ _ _ _ ?r = _ =>
        match type of Hc1 with
        | _ = _ ++ [?c] => apply (@exit_last r _ c errorA outA errA Hc1)
        end
    end.
    eapply Forall_impl; [|exact Hfresh]. simpl. intros child Hlt. exact Hlt. }
  destruct (validate_effect b
              {| ChildProcess.heap :=
                   handler resultA
                     (handler (exec_result errorB outB errB) (ChildProcess.heap rt2));
                 ChildProcess.children := ChildProcess.children rt;
                 ChildProcess.next_pid := S (S n) |})
    as (rt5 & E5 & Hd5 & _ & _ & Hs5 & Hc5 & _).
  unfold checker, validation_messages in *. rewrite Hb in Hc5, Hs5. simpl in Hd5, Hs5, Hc5.
  assert (Hrun : rt' = rt5).
  { unfold rt', run. cbn [fold_left dispatch]. unfold onDidChangeContent. cbn [document].
    rewrite E1. cbn [final]. rewrite E2. cbn [final]. rewrite X3, X4, E5. reflexivity. }
  assert (Hlist :
    diagnostics (handler resultA
                   (handler (exec_result errorB outB errB) (ChildProcess.heap rt2)))
    = diagnostics (handler resultA (ChildProcess.heap rt))).
  { rewrite !handler_classifier.
    destruct (handler_frame (exec_result errorB outB errB) (ChildProcess.heap rt2))
      as (Hm & _ & _).
    rewrite Hm, Hm2, Hm1. reflexivity. }
  rewrite Hrun. split; [rewrite Hd5; exact Hlist|]. split.
  - rewrite (@publications_app _ _ _ Hs5). simpl.
    unfold publications at 1.
    rewrite (proj2 (proj2 (handler_frame resultA _))).
    rewrite (proj2 (proj2 (handler_frame (exec_result errorB outB errB) _))).
    fold (publications (ChildProcess.heap rt2)).
    rewrite (@publications_app _ _ _ Hs2). simpl.
    rewrite (@publications_app _ _ _ Hs1). simpl.
    rewrite Hd1, Hlist, <- !app_assoc. reflexivity.
  - rewrite Hc5, map_app. reflexivity.
Qed.

(* ------------------------------------------------------------------ *)
(** ** Completion *)

(** X14: resolving a completion item twice is resolving it once; the
    handler never changes the label, the kind or the data of an item, and
    it returns the item as it is unless its data is the number 1 or 2. *)
Theorem resolve_idempotent (item : Completion.CompletionItem) :
  let resolved := Completion.onCompletionResolve item in
  Completion.onCompletionResolve resolved = resolved
  /\ Completion.label resolved = Completion.label item
  /\ Completion.kind resolved = Completion.kind item
  /\ Completion.data resolved = Completion.data item
  /\ (resolved = item
      \/ Completion.data item = number 1 \/ Completion.data item = number 2).
Proof.
  unfold Completion.onCompletionResolve.
  destruct (Completion.strictly_equal (Completion.data item) 1) eqn:E1.
  - simpl. rewrite E1. repeat split.
    right. left. destruct (Completion.data item) as [| |n]; try discriminate.
    simpl in E1. apply Z.eqb_eq in E1. subst n. reflexivity.
  - destruct (Completion.strictly_equal (Completion.data item) 2) eqn:E2.
    + simpl. rewrite E1, E2. repeat split.
      right. right. destruct (Completion.data item) as [| |n]; try discriminate.
      simpl in E2. apply Z.eqb_eq in E2. subst n. reflexivity.
    + simpl. rewrite E1, E2. repeat split. left. reflexivity.
Qed.

(** X15: whatever the position is, the server offers two items with
    different data and without detail; resolving an offered item attaches
    the detail and the documentation made of its own label followed by
    [" details"] and [" documentation"]. *)
Theorem offered_items_resolve (position : Completion.TextDocumentPositionParams) :
  let offered := Completion.onCompletion position in
  List.length offered = 2
  /\ NoDup (map Completion.data offered)
  /\ Forall (fun item =>
       Completion.detail item = None
       /\ Completion.detail (Completion.onCompletionResolve item)
          = Some (Completion.label item ++ str " details")
       /\ Completion.documentation (Completion.onCompletionResolve item)
          = Some (Completion.label item ++ str " documentation")) offered.
Proof.
  simpl. split; [reflexivity|]. split.
  - constructor.
    + intros [H | []]. discriminate H.
    + constructor; [intros [] | constructor].
  - repeat constructor.
Qed.

(* ------------------------------------------------------------------ *)
(** ** The further properties on sample runs *)

Ltac plain_lines :=
  repeat first
    [ apply Forall_nil
    | apply Forall_cons
    | split
    | discriminate ].

(** The two sample lines with either line ending. *)
Lemma line_endings_equivalent_report :
  report_lines <> []
  /\ Forall plain report_lines
  /\ handler {| stdout := JsString.empty;
                stderr := JsString.join [JsString.CR; JsString.LF] report_lines;
                exitCode := number 4 |} (ChildProcess.heap (configured (number 100)))
     = handler {| stdout := JsString.empty;
                  stderr := JsString.join [JsString.LF] report_lines;
                  exitCode := number 4 |} (ChildProcess.heap (configured (number 100))).
Proof.
  assert (Hne : report_lines <> []) by discriminate.
  assert (Hplain : Forall plain report_lines).
  { unfold plain, report_lines. cbv [str JsString.lit list_ascii_of_string map N_of_ascii
      N_of_digits N.add N.mul Pos.add Pos.succ Pos.mul]. plain_lines. }
  split; [exact Hne|]. split; [exact Hplain|].
  exact (line_endings_equivalent
           (ChildProcess.heap (configured (number 100)))
           JsString.empty JsString.empty (number 4) (number 4) Hne Hplain).
Defined.

Ltac sample_strings :=
  cbv [str JsString.lit list_ascii_of_string map N_of_ascii
       N_of_digits N.add N.mul Pos.add Pos.succ Pos.mul
       JsString.TAB JsString.SP app].

(** The two sample lines, plain and padded. *)
Lemma padding_ignored_report :
  report_lines <> []
  /\ Forall plain report_lines
  /\ handler {| stdout := JsString.empty;
                stderr := JsString.join [JsString.LF] report_lines_padded;
                exitCode := number 4 |} (ChildProcess.heap (configured (number 100)))
     = handler {| stdout := JsString.empty;
                  stderr := JsString.join [JsString.LF] report_lines;
                  exitCode := number 0 |} (ChildProcess.heap (configured (number 100))).
Proof.
  assert (Hne : report_lines <> []) by discriminate.
  assert (Hplain : Forall plain report_lines).
  { unfold plain, report_lines. sample_strings. plain_lines. }
  assert (Hpad : Forall2 (fun a b =>
            exists before after : jsstring,
              blank before /\ blank after /\ a = before ++ b ++ after)
            report_lines_padded report_lines).
  { unfold report_lines_padded, report_lines. constructor; [|constructor; [|constructor]].
    - exists (str "  "), (str " "). unfold blank. sample_strings.
      split; [plain_lines; reflexivity|]. split; [plain_lines; reflexivity | reflexivity].
    - exists [JsString.TAB], []. unfold blank. sample_strings.
      split; [plain_lines; reflexivity|]. split; [plain_lines | reflexivity]. }
  split; [exact Hne|]. split; [exact Hplain|].
  exact (padding_ignored
           (ChildProcess.heap (configured (number 100)))
           JsString.empty JsString.empty (number 4) (number 0) Hne Hplain Hpad).
Defined.

(** A change of [play.yml] and the end of its process, with a warning
    and an error on stderr, before any configuration change. *)
Lemma nothing_reported_before_configuration_play_yml :
  let messages :=
    [ Notified (DidChangeContent {| document := play_yml |});
      Notified (ChildExit 0 (Some {| code := number 4 |}) JsString.empty
                  (stderr warning_then_error));
      Notified (DidChangeContent {| document := play_yml |}) ] in
  forallb (fun m => negb (is_configuration m)) messages = true
  /\ Forall (fun ud => snd ud = [])
       (publications (ChildProcess.heap (runtime (serve messages (fresh_session []))))).
Proof.
  split; [reflexivity|].
  exact (proj2 (proj2
    (nothing_reported_before_configuration
       [ Notified (DidChangeContent {| document := play_yml |});
         Notified (ChildExit 0 (Some {| code := number 4 |}) JsString.empty
                     (stderr warning_then_error));
         Notified (DidChangeContent {| document := play_yml |}) ] [] eq_refl))).
Defined.

(** The command line for [play.yml]. *)
Lemma validation_command_line_play_yml :
  is_file play_yml = true
  /\ map (fun c => (ChildProcess.pid c, ChildProcess.command c))
       (ChildProcess.children
          (final (validateTextDocument play_yml (configured (number 100)))))
     = [ (0, syntax_check (str "/tmp/play.yml")) ].
Proof.
  split; [reflexivity|].
  exact (proj1 (validation_command_line (configured (number 100)) play_yml eq_refl)).
Defined.

(** [play.yml] and [site.yml]: the check of [site.yml] ends first with
    two warnings, then the check of [play.yml] with a warning and an error;
    the two diagnostics of [play.yml] are what is left. *)
Lemma older_callback_wins_play_then_site :
  is_file play_yml = true
  /\ is_file site_yml = true
  /\ ChildProcess.fresh_pids (configured (number 100))
  /\ diagnostics (ChildProcess.heap
       (run [ DidChangeContent {| document := play_yml |};
              DidChangeContent {| document := site_yml |};
              ChildExit 1 None JsString.empty (stderr two_warnings);
              ChildExit 0 (Some {| code := number 4 |}) JsString.empty
                (stderr warning_then_error);
              DidChangeContent {| document := site_yml |} ]
            (configured (number 100))))
     = [ diagnostic_at 0 Warning (str "deprecated");
         diagnostic_at 1 Error (str "bad module name") ].
Proof.
  split; [reflexivity|]. split; [reflexivity|]. split; [constructor|].
  eapply eq_trans.
  - exact (proj1 (@older_callback_wins (configured (number 100)) play_yml site_yml
                    (Some {| code := number 4 |}) None
                    JsString.empty JsString.empty
                    (stderr warning_then_error) (stderr two_warnings)
                    eq_refl eq_refl (Forall_nil _))).
  - reflexivity.
Defined.

(* ------------------------------------------------------------------ *)
(** ** The maximum and the command line *)

Lemma firstn_min_length {A : Type} (a : nat) (l : list A) :
  firstn (Nat.min a (List.length l)) l = firstn a l.
Proof.
  destruct (Nat.le_ge_cases a (List.length l)) as [H|H].
  - rewrite Nat.min_l by exact H. reflexivity.
  - rewrite Nat.min_r by exact H. rewrite firstn_all, firstn_all2 by exact H. reflexivity.
Qed.

(** X18: a larger maximum only adds diagnostics at the end: what
    [handler] leaves under a maximum is the beginning of what it leaves,
    for the same stderr text, under any maximum that is not smaller. *)
Theorem smaller_maximum_prefix (result : ExecResult) (s s' : ServerState) (m m' : Z) :
  maxNumberOfProblems s = number m ->
  maxNumberOfProblems s' = number m' ->
  (m <= m')%Z ->
  diagnostics (handler result s)
  = firstn (List.length (diagnostics (handler result s))) (diagnostics (handler result s')).
Proof.
  intros Hm Hm' Hle. rewrite !handler_classifier, Hm, Hm'. unfold classifier, budget.
  simpl. rewrite !Z.sub_0_r.
  set (L := line_diagnostics 0 (JsString.split_lines (stderr result))).
  rewrite length_firstn, firstn_firstn.
  assert (Hmin : Nat.min (Nat.min (Z.to_nat m) (List.length L)) (Z.to_nat m')
                 = Nat.min (Z.to_nat m) (List.length L)) by lia.
  rewrite Hmin. symmetry. apply firstn_min_length.
Qed.

(** The sample run under the maxima 1 and 100. *)
Lemma smaller_maximum_prefix_1_100 :
  maxNumberOfProblems (ChildProcess.heap (configured (number 1))) = number 1
  /\ maxNumberOfProblems (ChildProcess.heap (configured (number 100))) = number 100
  /\ (1 <= 100)%Z
  /\ diagnostics (handler warning_then_error (ChildProcess.heap (configured (number 1))))
     = firstn 1
         (diagnostics (handler warning_then_error (ChildProcess.heap (configured (number 100))))).
Proof.
  split; [reflexivity|]. split; [reflexivity|]. split; [lia|].
  exact (@smaller_maximum_prefix warning_then_error
           (ChildProcess.heap (configured (number 1)))
           (ChildProcess.heap (configured (number 100))) 1 100
           eq_refl eq_refl (fun H => match H with eq_refl => I end)).
Defined.

Lemma join_space_unquoted (a b : jsstring) (rest : list jsstring) :
  JsString.join (str " ") ((a ++ str " " ++ b) :: rest)
  = JsString.join (str " ") (a :: b :: rest).
Proof.
  destruct rest as [|r rest].
  - reflexivity.
  - change (JsString.join (str " ") ((a ++ str " " ++ b) :: r :: rest))
      with ((a ++ str " " ++ b) ++ str " " ++ JsString.join (str " ") (r :: rest)).
    change (JsString.join (str " ") (a :: b :: r :: rest))
      with (a ++ str " " ++ b ++ str " " ++ JsString.join (str " ") (r :: rest)).
    rewrite <- !app_assoc. reflexivity.
Qed.

(** X17: the runner does not quote its arguments: an argument with a
    space in it starts the same command, with the same callback, as the
    two arguments on either side of the space; an empty argument list
    leaves a space after the program name. *)
Theorem exec_does_not_quote (Heap : Type) (handleResult : ExecResult -> Heap -> Heap)
    (filename a b : jsstring) (before rest : list jsstring) (rt : ChildProcess.Runtime Heap) :
  NodeExec.exec filename (before ++ (a ++ str " " ++ b) :: rest) handleResult rt
  = NodeExec.exec filename (before ++ a :: b :: rest) handleResult rt
  /\ map (@ChildProcess.command Heap)
       (ChildProcess.children (NodeExec.exec filename [] handleResult rt))
     = map (@ChildProcess.command Heap) (ChildProcess.children rt)
       ++ [ filename ++ str " " ].
Proof.
  split.
  - unfold NodeExec.exec. cbv zeta. f_equal. f_equal.
    induction before as [|p before IH].
    + apply join_space_unquoted.
    + destruct before as [|q before].
      * change (JsString.join (str " ") ([p] ++ (a ++ str " " ++ b) :: rest))
          with (p ++ str " " ++ JsString.join (str " ") ((a ++ str " " ++ b) :: rest)).
        rewrite join_space_unquoted. reflexivity.
      * change (JsString.join (str " ") ((p :: q :: before) ++ (a ++ str " " ++ b) :: rest))
          with (p ++ str " "
                ++ JsString.join (str " ") ((q :: before) ++ (a ++ str " " ++ b) :: rest)).
        rewrite IH. reflexivity.
  - unfold NodeExec.exec, ChildProcess.exec. simpl. rewrite map_app. simpl.
    unfold JsString.concat. rewrite app_nil_r. reflexivity.
Qed.
